(** * The service health-check coordinator, [scripts/health-check.js]

    A shallow embedding of the script: the registry [services], the prober
    [makeRequest], the evaluators [checkService] and [checkDatabase], the
    aggregator [main] and the two process-wide handlers.

    JavaScript effects are explicit.  A computation is a function on a
    [World] (console output, the requests issued so far, the array
    [results] of [main]) that ends in a [Completion]: a value, a thrown
    error, [process.exit], or a wait for a promise that never settles.  The
    network and the built-ins of the runtime are section variables. *)

From stdpp Require Import base strings list gmap pretty.
From Stdlib Require Import ZArith Lia PrimFloat.

Set Warnings "-register-all".

(** ** JavaScript values as [JSON.parse] returns them *)

Inductive JsValue :=
| JUndefined
| JNull
| JBool (b : bool)
| JNumber (x : float)
| JString (s : string)
| JArray (items : list JsValue)
| JObject (props : gmap string JsValue).

(** An [Error] object: the optional [code] that Node sets on system errors,
    and the [message]. *)
Record JsError := { error_code : option string; error_message : string }.

(** [new Error(msg)] *)
Definition Error (msg : string) : JsError :=
  {| error_code := None; error_message := msg |}.

(** The truthiness test of [if (v)]. *)
Definition ToBoolean (v : JsValue) : bool :=
  match v with
  | JUndefined | JNull => false
  | JBool b => b
  | JNumber x => negb (PrimFloat.is_zero x || PrimFloat.is_nan x)
  | JString s => negb (String.eqb s "")
  | JArray _ | JObject _ => true
  end.

(** [haystack.includes(needle)] *)
Fixpoint includes (haystack needle : string) : bool :=
  String.prefix needle haystack ||
  match haystack with
  | EmptyString => false
  | String _ rest => includes rest needle
  end.

(** [url.startsWith(p)] *)
Definition startsWith (s p : string) : bool := String.prefix p s.

Definition bytes (codes : list nat) : string :=
  String.string_of_list_ascii (map Ascii.ascii_of_nat codes).

(** The newline of the template literals, and a double quote. *)
Definition nl : string := bytes [10].
Definition dquote : string := bytes [34].

(** ** Data model *)

(** An entry of the registry. *)
Record ServiceTarget := { name : string; url : string; critical : bool }.

(** What [makeRequest] resolves with. *)
Record Response := {
  response_status : Z;
  response_data : string;
  response_headers : list (string * string)
}.

(** What [checkService] and [checkDatabase] return; [code] and [error] are
    the properties that only some of the returned objects have. *)
Record Verdict := {
  service : string;
  status : string;
  code : option Z;
  error : option string
}.

(** A chunk of a response body, as the ['data'] event delivers it. *)
Definition Buffer : Type := list Byte.byte.

(** How one HTTP GET ends: the response callback followed by the body
    chunks and ['end']; the response callback and some chunks of a response
    that is cut off, so that ['end'] is never emitted and no handler of the
    request runs; the ['timeout'] event; or the ['error'] event. *)
Inductive NetEvent :=
| Responded (statusCode : Z) (chunks : list Buffer)
            (hdrs : list (string * string))
| Truncated (statusCode : Z) (chunks : list Buffer)
            (hdrs : list (string * string))
| TimeoutFired
| ErrorEmitted (err : JsError).

Inductive Client := http | https.

(** The final state of a promise: resolved, rejected, or pending for
    ever. *)
Inductive Promise (A : Type) :=
| Resolved (a : A)
| Rejected (e : JsError)
| Pending.
Arguments Resolved {A} a.
Arguments Rejected {A} e.
Arguments Pending {A}.

(** ** Computations *)

(** What a run has done so far: the lines written by [console.log] and by
    [console.error], the URLs requested, in order, and the contents of the
    array [results] of [main]. *)
Record World := {
  stdout : list string;
  stderr : list string;
  requests : list string;
  results : list Verdict
}.

Definition initial : World :=
  {| stdout := []; stderr := []; requests := []; results := [] |}.

(** How a computation ends: with a value, with a thrown error, in
    [process.exit], or suspended at an [await] that never resumes. *)
Inductive Completion (A : Type) :=
| Normal (a : A)
| Throw (e : JsError)
| Exit (exitCode : Z)
| Suspended.
Arguments Normal {A} a.
Arguments Throw {A} e.
Arguments Exit {A} exitCode.
Arguments Suspended {A}.

Definition M (A : Type) : Type := World -> Completion A * World.

#[global] Instance M_ret : MRet M := fun A a w => (Normal a, w).

#[global] Instance M_bind : MBind M := fun A B k m w =>
  match m w with
  | (Normal a, w') => k a w'
  | (Throw e, w') => (Throw e, w')
  | (Exit c, w') => (Exit c, w')
  | (Suspended, w') => (Suspended, w')
  end.

(** [throw e] *)
Definition throw {A} (e : JsError) : M A := fun w => (Throw e, w).

(** [try { body } catch (e) { handler }]; neither [process.exit] nor a
    suspension is caught. *)
Definition try_catch {A} (body : M A) (handler : JsError -> M A) : M A :=
  fun w =>
    match body w with
    | (Throw e, w') => handler e w'
    | r => r
    end.

(** [await p] *)
Definition await {A} (p : M (Promise A)) : M A :=
  s ← p;
  match s with
  | Resolved a => mret a
  | Rejected e => throw e
  | Pending => fun w => (Suspended, w)
  end.

(** [if (c) { body }] *)
Definition when (c : bool) (body : M unit) : M unit :=
  if c then body else mret tt.

Definition console_log (line : string) : M unit := fun w =>
  (Normal tt,
   {| stdout := stdout w ++ [line]; stderr := stderr w;
      requests := requests w; results := results w |}).

Definition console_error (line : string) : M unit := fun w =>
  (Normal tt,
   {| stdout := stdout w; stderr := stderr w ++ [line];
      requests := requests w; results := results w |}).

Definition process_exit {A} (c : Z) : M A := fun w => (Exit c, w).

(** [const results = []], [results.push(v)] and a read of [results]. *)
Definition results_new : M unit := fun w =>
  (Normal tt,
   {| stdout := stdout w; stderr := stderr w;
      requests := requests w; results := [] |}).

Definition results_push (v : Verdict) : M unit := fun w =>
  (Normal tt,
   {| stdout := stdout w; stderr := stderr w;
      requests := requests w; results := results w ++ [v] |}).

Definition results_get : M (list Verdict) := fun w => (Normal (results w), w).

(** [for (const x of xs) { body }] *)
Fixpoint for_of {A} (xs : list A) (body : A -> M unit) : M unit :=
  match xs with
  | [] => mret tt
  | x :: rest => body x;; for_of rest body
  end.

(** ** Configuration *)

Definition services : list ServiceTarget := [
  {| name := "Vanna AI Service";
     url := "http://localhost:8000/health";
     critical := true |};
  {| name := "API Backend";
     url := "http://localhost:4000/api/chat/health";
     critical := true |};
  {| name := "Web Frontend";
     url := "http://localhost:3000";
     critical := false |}
].

Module colors.
Definition green : string := bytes [27] +:+ "[32m".
Definition red : string := bytes [27] +:+ "[31m".
Definition yellow : string := bytes [27] +:+ "[33m".
Definition blue : string := bytes [27] +:+ "[34m".
Definition reset : string := bytes [27] +:+ "[0m".
End colors.

(** The glyphs of the messages, byte for byte as the source file has them. *)
Definition glyph_ok : string := bytes [195; 162; 197; 147; 226; 128; 156].
Definition glyph_warn : string := bytes [195; 162; 197; 161; 194; 160].
Definition glyph_fail : string := bytes [195; 162; 197; 147; 226; 128; 148].
Definition glyph_party : string :=
  bytes [195; 176; 197; 184; 197; 189; 226; 128; 176].

(** [response.status >= 200 && response.status < 300] *)
Definition is_2xx (st : Z) : bool := (200 <=? st)%Z && (st <? 300)%Z.

(** [results.filter(r => r.status === s).length] *)
Definition count_status (s : string) (rs : list Verdict) : nat :=
  length (filter (fun r => status r = s) rs).

(** ** Notions used in the statements *)

(** The world [w] after the lines [out] were printed, the URLs [reqs] were
    requested and the verdicts [vs] were pushed. *)
Definition extend (w : World) (out reqs : list string) (vs : list Verdict)
  : World :=
  {| stdout := stdout w ++ out; stderr := stderr w;
     requests := requests w ++ reqs; results := results w ++ vs |}.

(** The probe ended in one of the ways that settle the promise of
    [makeRequest]. *)
Definition settles (o : NetEvent) : bool :=
  match o with
  | Truncated _ _ _ => false
  | _ => true
  end.

(** The error a failed probe rejects with. *)
Definition rejection (o : NetEvent) : option JsError :=
  match o with
  | Responded _ _ _ | Truncated _ _ _ => None
  | TimeoutFired => Some (Error "Request timeout")
  | ErrorEmitted err => Some err
  end.


(** The outcome [o] without the body and the headers of its response. *)
Definition status_line_of (o : NetEvent) : NetEvent :=
  match o with
  | Responded statusCode _ _ => Responded statusCode [] []
  | Truncated statusCode _ _ => Truncated statusCode [] []
  | _ => o
  end.

(** How a function that returns [v], or that never returns, completes. *)
Definition completion_of {A} (v : option A) : Completion A :=
  match v with
  | Some a => Normal a
  | None => Suspended
  end.

(** The value of [data.key] when the read does not throw. *)
Definition own_property (data : JsValue) (key : string) : JsValue :=
  match data with
  | JObject props => default JUndefined (props !! key)
  | _ => JUndefined
  end.

(** The first lines that [checkService] prints for a target. *)
Definition checking_line (n : string) : string :=
  colors.blue +:+ "Checking " +:+ n +:+ "..." +:+ colors.reset.

Definition healthy_line (n : string) (st : Z) : string :=
  colors.green +:+ glyph_ok +:+ " " +:+ n +:+ " is healthy (" +:+ pretty st
  +:+ ")" +:+ colors.reset.

Definition warning_line (n : string) (st : Z) : string :=
  colors.yellow +:+ glyph_warn +:+ " " +:+ n +:+ " returned " +:+ pretty st
  +:+ colors.reset.

Definition inaccessible_line (color symbol n : string) : string :=
  color +:+ symbol +:+ " " +:+ n +:+ " is not accessible" +:+ colors.reset.

(** The endpoint of the database proxy check. *)
Definition stats_url : string := "http://localhost:4000/api/stats".

(** The verdict that the evaluator returns for the target named [n] when
    its probe ends as [o]; none when the probe never settles. *)
Definition verdict_of (n : string) (o : NetEvent) : option Verdict :=
  match o with
  | Responded statusCode _ _ =>
      Some {| service := n;
              status := if is_2xx statusCode then "healthy" else "warning";
              code := Some statusCode; error := None |}
  | Truncated _ _ _ => None
  | TimeoutFired =>
      Some {| service := n; status := "error"; code := None;
              error := Some "Request timeout" |}
  | ErrorEmitted err =>
      Some {| service := n; status := "error"; code := None;
              error := Some (error_message err) |}
  end.

(** The verdict of the database proxy check when its probe ends as [o]. *)
Definition database_verdict (o : NetEvent) : option Verdict :=
  match o with
  | Responded statusCode _ _ =>
      if is_2xx statusCode then
        Some {| service := "Database"; status := "healthy";
                code := None; error := None |}
      else
        Some {| service := "Database"; status := "warning";
                code := Some statusCode; error := None |}
  | Truncated _ _ _ => None
  | TimeoutFired =>
      Some {| service := "Database"; status := "error"; code := None;
              error := Some "Request timeout" |}
  | ErrorEmitted err =>
      Some {| service := "Database"; status := "error"; code := None;
              error := Some (error_message err) |}
  end.

(** The lines of the summary block for the report [rs]. *)
Definition summary_lines (rs : list Verdict) : list string :=
  [colors.blue +:+ "=== Summary ===" +:+ colors.reset;
   colors.green +:+ "Healthy: " +:+ pretty (count_status "healthy" rs)
   +:+ colors.reset;
   colors.yellow +:+ "Warnings: " +:+ pretty (count_status "warning" rs)
   +:+ colors.reset;
   colors.red +:+ "Errors: " +:+ pretty (count_status "error" rs)
   +:+ colors.reset].

(** The three values a verdict's [status] is meant to take. *)
Definition known_status (s : string) : Prop :=
  s = "healthy" \/ s = "warning" \/ s = "error".

(** The same target with its [critical] flag set to [b]. *)
Definition with_critical (b : bool) (t : ServiceTarget) : ServiceTarget :=
  {| name := name t; url := url t; critical := b |}.

(** The registry [ts] with the [critical] flags replaced, in order, by
    [flags]; targets beyond the end of [flags] keep theirs. *)
Fixpoint reflag (flags : list bool) (ts : list ServiceTarget)
  : list ServiceTarget :=
  match ts, flags with
  | [], _ => []
  | _, [] => ts
  | t :: ts', b :: flags' => with_critical b t :: reflag flags' ts'
  end.

(** The color and the symbol of the "not accessible" line. *)
Definition failure_color (isCritical : bool) : string :=
  if isCritical then colors.red else colors.yellow.

Definition failure_symbol (isCritical : bool) : string :=
  if isCritical then glyph_fail else glyph_warn.

(** The third entry of the registry. *)
Definition frontend : ServiceTarget :=
  {| name := "Web Frontend"; url := "http://localhost:3000";
     critical := false |}.

(** The two advisory lines of [checkService]. *)
Definition advice_not_running (n : string) : string :=
  "  Suggestion: Make sure " +:+ n +:+ " is running".

Definition advice_slow : string :=
  "  Suggestion: Service may be slow to respond or overloaded".

(** The advice printed for the target named [n] after the error [e]: at
    most one line. *)
Definition suggestion (n : string) (e : JsError) : list string :=
  if decide (error_code e = Some "ECONNREFUSED") then [advice_not_running n]
  else if includes (error_message e) "timeout" then [advice_slow]
  else [].

(** ** Notions used for the output of a run *)

(** The first line of a run. *)
Definition banner_line : string :=
  colors.blue +:+ "=== Analytics Dashboard Health Check ===" +:+ colors.reset
  +:+ nl.

(** The lines [checkService] prints for target [t] when its probe fails
    with [e]. *)
Definition failure_lines (t : ServiceTarget) (e : JsError) : list string :=
  [checking_line (name t);
   inaccessible_line (failure_color (critical t))
     (failure_symbol (critical t)) (name t);
   "  Error: " +:+ error_message e]
  ++ suggestion (name t) e.

(** The first line of [checkDatabase]. *)
Definition database_checking_line : string :=
  colors.blue +:+ "Checking Database Connection..." +:+ colors.reset.

(** The lines [checkDatabase] prints when its probe fails with [e]. *)
Definition database_failure_lines (e : JsError) : list string :=
  [database_checking_line;
   colors.red +:+ glyph_fail +:+ " Database connection failed"
   +:+ colors.reset;
   "  Error: " +:+ error_message e;
   "  Suggestion: Check DATABASE_URL and ensure PostgreSQL is running"].

(** The lines [checkDatabase] prints when its probe ends as [o]. *)
Definition database_lines (o : NetEvent) : list string :=
  match o with
  | Responded statusCode _ _ =>
      if is_2xx statusCode then
        [database_checking_line;
         colors.green +:+ glyph_ok +:+ " Database connection is working"
         +:+ colors.reset]
      else
        [database_checking_line;
         colors.yellow +:+ glyph_warn
         +:+ " Database connection may have issues (API returned "
         +:+ pretty statusCode +:+ ")" +:+ colors.reset]
  | Truncated _ _ _ => [database_checking_line]
  | TimeoutFired => database_failure_lines (Error "Request timeout")
  | ErrorEmitted err => database_failure_lines err
  end.

(** The three endings of the output of [main]. *)
Definition remediation_lines : list string :=
  [nl +:+ colors.red
   +:+ "Critical issues detected. Please check the services above."
   +:+ colors.reset;
   nl +:+ "Common solutions:";
   "1. Start Vanna service: cd apps/services/vanna && python -m uvicorn app.main:app --port 8000";
   "2. Start API backend: cd apps/api && npm run dev";
   "3. Start web frontend: cd apps/web && npm run dev";
   "4. Check environment variables in .env files";
   "5. Ensure PostgreSQL database is running"].

Definition degraded_line : string :=
  nl +:+ colors.yellow
  +:+ "Some services have warnings. The system may still work but with limited functionality."
  +:+ colors.reset.

Definition all_healthy_line : string :=
  nl +:+ colors.green +:+ "All systems are healthy! " +:+ glyph_party
  +:+ colors.reset.

(** The ending that [main] prints after the summary of the report [rs]. *)
Definition closing_lines (rs : list Verdict) : list string :=
  if bool_decide (0 < count_status "error" rs) then remediation_lines
  else if bool_decide (0 < count_status "warning" rs) then [degraded_line]
  else [all_healthy_line].

(** ** Scenarios *)

Module Scenario.

(** The bytes of an ASCII text, and the text of a chunk of such bytes. *)
Definition buffer_of (text : string) : Buffer :=
  String.list_byte_of_string text.

Definition decode (chunk : Buffer) : string :=
  String.string_of_list_byte chunk.

(** [Buffer.prototype.toString] on UTF-8 text of one- and two-byte
    characters, the text being held as its UTF-8 bytes: a byte of the
    chunk that is not part of a complete character becomes U+FFFD. *)
Definition replacement : string := bytes [239; 191; 189].

Definition is_lead (b : Byte.byte) : bool :=
  (194 <=? Byte.to_N b)%N && (Byte.to_N b <? 224)%N.

Definition is_continuation (b : Byte.byte) : bool :=
  (128 <=? Byte.to_N b)%N && (Byte.to_N b <? 192)%N.

Fixpoint decode_utf8 (chunk : Buffer) : string :=
  match chunk with
  | [] => ""
  | b :: rest =>
      if (Byte.to_N b <? 128)%N then
        String (Ascii.ascii_of_byte b) (decode_utf8 rest)
      else
        match rest with
        | b' :: rest' =>
            if is_lead b && is_continuation b' then
              String (Ascii.ascii_of_byte b)
                (String (Ascii.ascii_of_byte b') (decode_utf8 rest'))
            else replacement +:+ decode_utf8 rest
        | [] => replacement
        end
  end.

(** The error of a connection that nothing accepts, on the port of the
    web frontend and on the port of the AI service. *)
Definition refused : JsError :=
  {| error_code := Some "ECONNREFUSED";
     error_message := "connect ECONNREFUSED 127.0.0.1:3000" |}.

Definition refused_8000 : JsError :=
  {| error_code := Some "ECONNREFUSED";
     error_message := "connect ECONNREFUSED 127.0.0.1:8000" |}.

(** The error of a connection attempt that the system gave up. *)
Definition gave_up : JsError :=
  {| error_code := Some "ETIMEDOUT";
     error_message := "connect ETIMEDOUT 10.0.0.1:80" |}.

(** A target on a host whose name does not resolve, and the error of the
    failed lookup. *)
Definition gateway : ServiceTarget :=
  {| name := "Gateway"; url := "http://timeout.example.com/health";
     critical := true |}.

Definition unknown_host : JsError :=
  {| error_code := Some "ENOTFOUND";
     error_message := "getaddrinfo ENOTFOUND timeout.example.com" |}.

(** Three JSON bodies, and a body that is not JSON: [{"status":"ok"}],
    [{"version":0}], [{"status":{"toString":1},"version":"2.0"}] and [OK]. *)
Definition body_status_ok : string :=
  "{" +:+ dquote +:+ "status" +:+ dquote +:+ ":" +:+ dquote +:+ "ok"
  +:+ dquote +:+ "}".

Definition body_version_zero : string :=
  "{" +:+ dquote +:+ "version" +:+ dquote +:+ ":0}".

Definition body_odd_status : string :=
  "{" +:+ dquote +:+ "status" +:+ dquote +:+ ":{" +:+ dquote +:+ "toString"
  +:+ dquote +:+ ":1}," +:+ dquote +:+ "version" +:+ dquote +:+ ":" +:+ dquote
  +:+ "2.0" +:+ dquote +:+ "}".

Definition body_plain : string := "OK".

(** [JSON.parse] on these bodies; on any other text of the scenarios it
    throws. *)
Definition parse (text : string) : option JsValue :=
  if String.eqb text body_status_ok then
    Some (JObject {[ "status" := JString "ok" ]})
  else if String.eqb text body_version_zero then
    Some (JObject {[ "version" := JNumber 0%float ]})
  else if String.eqb text body_odd_status then
    Some (JObject {[ "status" := JObject {[ "toString" := JNumber 1%float ]};
                     "version" := JString "2.0" ]})
  else None.

(** The string conversion of a template literal on the values of these
    bodies: an object whose own [toString] is not a function cannot be
    converted. *)
Definition to_string (v : JsValue) : option string :=
  match v with
  | JString s => Some s
  | JNumber _ => Some "0"
  | JObject props =>
      if decide (is_Some (props !! "toString")) then None
      else Some "[object Object]"
  | _ => Some ""
  end.

Definition stringify (v : JsValue) : string :=
  match v with
  | JString s => dquote +:+ s +:+ dquote
  | JNumber _ => "0"
  | _ => ""
  end.

(** The end-to-end scenario of the specification on the registry of the
    script: the first target answers 200, the second 503, the third refuses
    the connection, and the database endpoint answers 200. *)
Definition mixed_net (k : nat) (c : Client) (u : string) : NetEvent :=
  match k with
  | 0 => Responded 200 [buffer_of body_status_ok] []
  | 1 => Responded 503 [] []
  | 2 => ErrorEmitted refused
  | _ => Responded 200 [buffer_of body_plain] []
  end.

(** [mixed_net] with other bodies and headers. *)
Definition mixed_net_other_bodies (k : nat) (c : Client) (u : string)
  : NetEvent :=
  match k with
  | 0 => Responded 200 [buffer_of body_version_zero] [("server", "uvicorn")]
  | 1 => Responded 503 [buffer_of "Service "; buffer_of "Unavailable"] []
  | 2 => ErrorEmitted refused
  | _ => Responded 200 [] []
  end.

(** Every target answers 200 but the third, which redirects. *)
Definition redirect_net (k : nat) (c : Client) (u : string) : NetEvent :=
  match k with
  | 2 => Responded 302 [] [("location", "/login")]
  | _ => Responded 200 [buffer_of body_plain] []
  end.

(** Every request is answered 200 with the body [{"version":0}], in two
    chunks. *)
Definition version_zero_net (k : nat) (c : Client) (u : string) : NetEvent :=
  Responded 200
    [buffer_of ("{" +:+ dquote +:+ "version"); buffer_of (dquote +:+ ":0}")]
    [].


(** Every request is answered 200 with the body whose [status] cannot be
    converted to a string. *)
Definition odd_status_net (k : nat) (c : Client) (u : string) : NetEvent :=
  Responded 200 [buffer_of body_odd_status] [].

(** Nothing listens on any port. *)
Definition refusing_net (k : nat) (c : Client) (u : string) : NetEvent :=
  ErrorEmitted refused.

(** No connection attempt is answered. *)
Definition unreachable_net (k : nat) (c : Client) (u : string) : NetEvent :=
  ErrorEmitted gave_up.

(** No host name resolves. *)
Definition unresolved_net (k : nat) (c : Client) (u : string) : NetEvent :=
  ErrorEmitted unknown_host.

(** No request is answered in time. *)
Definition silent_net (k : nat) (c : Client) (u : string) : NetEvent :=
  TimeoutFired.

(** The first target refuses the connection; the second sends the head of
    a response and closes the connection before the end of the body. *)
Definition cut_off_net (k : nat) (c : Client) (u : string) : NetEvent :=
  match k with
  | 0 => ErrorEmitted refused_8000
  | 1 => Truncated 200 [buffer_of "{"] []
  | _ => Responded 200 [buffer_of body_plain] []
  end.

(** Every target answers 200; the response of the database endpoint is cut
    off. *)
Definition cut_off_database_net (k : nat) (c : Client) (u : string)
  : NetEvent :=
  match k with
  | 3 => Truncated 200 [] []
  | _ => Responded 200 [buffer_of body_plain] []
  end.

End Scenario.

Section Script.

(** The network: how the [k]-th request of the run, sent with [client]
    to [url], ends. *)
Variable net : nat -> Client -> string -> NetEvent.

(** The runtime: the text of a chunk ([Buffer.prototype.toString], which
    decodes the bytes of that chunk alone), [JSON.parse] ([None] when it
    throws a [SyntaxError]), [JSON.stringify], and the string conversion of a
    template literal ([None] when it throws a [TypeError]). *)
Variable Buffer_toString : Buffer -> string.
Variable JSON_parse : string -> option JsValue.
Variable JSON_stringify : JsValue -> string.
Variable ToString : JsValue -> option string.

Definition JSON_parse_or_throw (text : string) : M JsValue :=
  match JSON_parse text with
  | Some v => mret v
  | None => throw (Error "Unexpected token in JSON")
  end.

Definition ToString_or_throw (v : JsValue) : M string :=
  match ToString v with
  | Some text => mret text
  | None => throw (Error "Cannot convert object to primitive value")
  end.

(** [data.key] for the keys read by the script ([status], [services],
    [version]), which no prototype defines: reading a property of [null]
    throws a [TypeError], an object gives its own property, and every other
    value gives [undefined]. *)
Definition get_property (data : JsValue) (key : string) : M JsValue :=
  match data with
  | JNull =>
      throw (Error ("Cannot read properties of null (reading '" +:+ key
                    +:+ "')"))
  | JUndefined =>
      throw (Error ("Cannot read properties of undefined (reading '" +:+ key
                    +:+ "')"))
  | JObject props => mret (default JUndefined (props !! key))
  | _ => mret JUndefined
  end.

Definition makeRequest (url : string) : M (Promise Response) := fun w =>
  let client := if startsWith url "https" then https else http in
  let promise :=
    match net (length (requests w)) client url with
    | Responded statusCode chunks hdrs =>
        Resolved {| response_status := statusCode;
                    response_data :=
                      fold_left
                        (fun data chunk => data +:+ Buffer_toString chunk)
                        chunks "";
                    response_headers := hdrs |}
    | Truncated _ _ _ => Pending
    | TimeoutFired => Rejected (Error "Request timeout")
    | ErrorEmitted err => Rejected err
    end in
  (Normal promise,
   {| stdout := stdout w; stderr := stderr w;
      requests := requests w ++ [url]; results := results w |}).

(** The inner [try]/[catch] of [checkService]: the body is parsed and the
    properties that are truthy are converted and printed, one after the
    other; whatever is thrown on the way is dropped, with the rest of the
    block. *)
Definition parse_additional_info (response : Response) : M unit :=
  try_catch
    (data ← JSON_parse_or_throw (response_data response);
     st ← get_property data "status";
     when (ToBoolean st)
       (text ← ToString_or_throw st;
        console_log ("  Status: " +:+ text));;
     sv ← get_property data "services";
     when (ToBoolean sv)
       (console_log ("  Services: " +:+ JSON_stringify sv));;
     ve ← get_property data "version";
     when (ToBoolean ve)
       (text ← ToString_or_throw ve;
        console_log ("  Version: " +:+ text)))
    (fun e => mret tt).

Definition checkService (service : ServiceTarget) : M Verdict :=
  console_log (colors.blue +:+ "Checking " +:+ name service +:+ "..."
               +:+ colors.reset);;
  try_catch
    (response ← await (makeRequest (url service));
     if is_2xx (response_status response) then
       console_log (colors.green +:+ glyph_ok +:+ " " +:+ name service
                    +:+ " is healthy (" +:+ pretty (response_status response)
                    +:+ ")" +:+ colors.reset);;
       parse_additional_info response;;
       mret {| service := name service; status := "healthy";
               code := Some (response_status response); error := None |}
     else
       console_log (colors.yellow +:+ glyph_warn +:+ " " +:+ name service
                    +:+ " returned " +:+ pretty (response_status response)
                    +:+ colors.reset);;
       mret {| service := name service; status := "warning";
               code := Some (response_status response); error := None |})
    (fun error =>
       let isCritical := critical service in
       let color := if isCritical then colors.red else colors.yellow in
       let symbol := if isCritical then glyph_fail else glyph_warn in
       console_log (color +:+ symbol +:+ " " +:+ name service
                    +:+ " is not accessible" +:+ colors.reset);;
       console_log ("  Error: " +:+ error_message error);;
       (if decide (error_code error = Some "ECONNREFUSED") then
          console_log ("  Suggestion: Make sure " +:+ name service
                       +:+ " is running")
        else if includes (error_message error) "timeout" then
          console_log "  Suggestion: Service may be slow to respond or overloaded"
        else mret tt);;
       mret {| service := name service; status := "error";
               code := None; error := Some (error_message error) |}).

Definition checkDatabase : M Verdict :=
  console_log (colors.blue +:+ "Checking Database Connection..."
               +:+ colors.reset);;
  try_catch
    (response ← await (makeRequest "http://localhost:4000/api/stats");
     if is_2xx (response_status response) then
       console_log (colors.green +:+ glyph_ok
                    +:+ " Database connection is working" +:+ colors.reset);;
       mret {| service := "Database"; status := "healthy";
               code := None; error := None |}
     else
       console_log (colors.yellow +:+ glyph_warn
                    +:+ " Database connection may have issues (API returned "
                    +:+ pretty (response_status response) +:+ ")"
                    +:+ colors.reset);;
       mret {| service := "Database"; status := "warning";
               code := Some (response_status response); error := None |})
    (fun error =>
       console_log (colors.red +:+ glyph_fail
                    +:+ " Database connection failed" +:+ colors.reset);;
       console_log ("  Error: " +:+ error_message error);;
       console_log "  Suggestion: Check DATABASE_URL and ensure PostgreSQL is running";;
       mret {| service := "Database"; status := "error";
               code := None; error := Some (error_message error) |}).

(** The body of [main], over the registry it iterates. *)
Definition main_on (registry : list ServiceTarget) : M unit :=
  console_log (colors.blue +:+ "=== Analytics Dashboard Health Check ==="
               +:+ colors.reset +:+ nl);;
  results_new;;
  for_of registry (fun service =>
    result ← checkService service;
    results_push result;;
    console_log "");;
  dbResult ← checkDatabase;
  results_push dbResult;;
  console_log "";;
  console_log (colors.blue +:+ "=== Summary ===" +:+ colors.reset);;
  rs ← results_get;
  let healthy := count_status "healthy" rs in
  let warnings := count_status "warning" rs in
  let errors := count_status "error" rs in
  console_log (colors.green +:+ "Healthy: " +:+ pretty healthy
               +:+ colors.reset);;
  console_log (colors.yellow +:+ "Warnings: " +:+ pretty warnings
               +:+ colors.reset);;
  console_log (colors.red +:+ "Errors: " +:+ pretty errors
               +:+ colors.reset);;
  if bool_decide (0 < errors) then
    console_log (nl +:+ colors.red
                 +:+ "Critical issues detected. Please check the services above."
                 +:+ colors.reset);;
    console_log (nl +:+ "Common solutions:");;
    console_log "1. Start Vanna service: cd apps/services/vanna && python -m uvicorn app.main:app --port 8000";;
    console_log "2. Start API backend: cd apps/api && npm run dev";;
    console_log "3. Start web frontend: cd apps/web && npm run dev";;
    console_log "4. Check environment variables in .env files";;
    console_log "5. Ensure PostgreSQL database is running";;
    process_exit 1%Z
  else if bool_decide (0 < warnings) then
    console_log (nl +:+ colors.yellow
                 +:+ "Some services have warnings. The system may still work but with limited functionality."
                 +:+ colors.reset);;
    process_exit 0%Z
  else
    console_log (nl +:+ colors.green +:+ "All systems are healthy! "
                 +:+ glyph_party +:+ colors.reset);;
    process_exit 0%Z.

Definition main : M unit := main_on services.

(** The handlers registered with [process.on]. *)
Definition on_uncaughtException (error : JsError) : M unit :=
  console_error (colors.red +:+ "Uncaught error: " +:+ error_message error
                 +:+ colors.reset);;
  process_exit 1%Z.

Definition on_unhandledRejection (error : JsError) : M unit :=
  console_error (colors.red +:+ "Unhandled rejection: "
                 +:+ error_message error +:+ colors.reset);;
  process_exit 1%Z.

(** How a process ends: its exit status and the world it leaves. *)
Record Ended := { exit_status : Z; final : World }.

(** The script from its last line on: [main()] runs from the [initial]
    world; a rejection of its promise reaches the ['unhandledRejection']
    handler; when [main] returns, or waits for a promise that never settles,
    nothing is left to run and the process ends with status 0. *)
Definition run_on (registry : list ServiceTarget) : Ended :=
  match main_on registry initial with
  | (Exit c, w) => {| exit_status := c; final := w |}
  | (Throw e, w) =>
      match on_unhandledRejection e w with
      | (Exit c, w') => {| exit_status := c; final := w' |}
      | (_, w') => {| exit_status := 0%Z; final := w' |}
      end
  | (Normal _, w) | (Suspended, w) =>
      {| exit_status := 0%Z; final := w |}
  end.

Definition run : Ended := run_on services.

(** How the [k]-th request of a run ends when it is sent to [url]. *)
Definition outcome (k : nat) (url : string) : NetEvent :=
  net k (if startsWith url "https" then https else http) url.

(** The text that [makeRequest] gathers from the chunks of a response: each
    chunk is converted on its own and appended. *)
Definition received_text (chunks : list Buffer) : string :=
  fold_left (fun data chunk => data +:+ Buffer_toString chunk) chunks "".

(** The lines printed for one property of the parsed body and for those
    after it: nothing for a falsy value, the line for a value that converts
    to [text], and the end of the block for a value that does not convert. *)
Definition info_line (label : string) (text : option string) (v : JsValue)
  (rest : list string) : list string :=
  if ToBoolean v then
    match text with
    | Some s => (label +:+ s) :: rest
    | None => []
    end
  else rest.

(** The lines printed for the body of a 2xx response. *)
Definition info_lines (parsed : option JsValue) : list string :=
  match parsed with
  | Some (JObject props) =>
      info_line "  Status: "
        (ToString (default JUndefined (props !! "status")))
        (default JUndefined (props !! "status"))
        (info_line "  Services: "
           (Some (JSON_stringify (default JUndefined (props !! "services"))))
           (default JUndefined (props !! "services"))
           (info_line "  Version: "
              (ToString (default JUndefined (props !! "version")))
              (default JUndefined (props !! "version"))
              []))
  | _ => []
  end.

(** The lines [checkService] prints for target [t] when its probe ends as
    [o]. *)
Definition service_lines (t : ServiceTarget) (o : NetEvent) : list string :=
  match o with
  | Responded statusCode chunks _ =>
      if is_2xx statusCode then
        [checking_line (name t); healthy_line (name t) statusCode]
        ++ info_lines (JSON_parse (received_text chunks))
      else [checking_line (name t); warning_line (name t) statusCode]
  | Truncated _ _ _ => [checking_line (name t)]
  | TimeoutFired => failure_lines t (Error "Request timeout")
  | ErrorEmitted err => failure_lines t err
  end.

(** The probes of the targets [ts] all settle, the first of them being
    request [k]. *)
Fixpoint probes_settle (k : nat) (ts : list ServiceTarget) : bool :=
  match ts with
  | [] => true
  | t :: ts' => settles (outcome k (url t)) && probes_settle (S k) ts'
  end.

(** The verdicts that the loop of [main] collects for the targets [ts] when
    the first of them is probed by request [k]: those of the targets before
    the first probe that never settles. *)
Fixpoint verdicts_from (k : nat) (ts : list ServiceTarget) : list Verdict :=
  match ts with
  | [] => []
  | t :: ts' =>
      match verdict_of (name t) (outcome k (url t)) with
      | Some v => v :: verdicts_from (S k) ts'
      | None => []
      end
  end.

(** The lines the loop prints: for each target the lines of its check and
    an empty line, up to the check whose probe never settles. *)
Fixpoint blocks_from (k : nat) (ts : list ServiceTarget) : list string :=
  match ts with
  | [] => []
  | t :: ts' =>
      service_lines t (outcome k (url t))
      ++ (if settles (outcome k (url t))
          then [""] ++ blocks_from (S k) ts' else [])
  end.

(** The requests the loop sends. *)
Fixpoint requests_from (k : nat) (ts : list ServiceTarget) : list string :=
  match ts with
  | [] => []
  | t :: ts' =>
      url t :: (if settles (outcome k (url t))
                then requests_from (S k) ts' else [])
  end.

(** Every probe of a run over [registry] settles, that of the database
    endpoint included, when the first probe is request [k]. *)
Definition completes_from (k : nat) (registry : list ServiceTarget) : bool :=
  probes_settle k registry
  && settles (outcome (k + length registry) stats_url).

(** The array [results] at the end of such a run. *)
Definition results_of (k : nat) (registry : list ServiceTarget)
  : list Verdict :=
  verdicts_from k registry
  ++ (if probes_settle k registry
      then option_list
             (database_verdict (outcome (k + length registry) stats_url))
      else []).

(** The requests of such a run. *)
Definition requests_of (k : nat) (registry : list ServiceTarget)
  : list string :=
  requests_from k registry
  ++ (if probes_settle k registry then [stats_url] else []).

(** The lines such a run prints. *)
Definition output_of (k : nat) (registry : list ServiceTarget)
  : list string :=
  [banner_line]
  ++ blocks_from k registry
  ++ (if probes_settle k registry then
        database_lines (outcome (k + length registry) stats_url)
        ++ (if settles (outcome (k + length registry) stats_url) then
              [""]
              ++ summary_lines (results_of k registry)
              ++ closing_lines (results_of k registry)
            else [])
      else []).

(** A run of the script: its first probe is request 0. *)
Definition run_completes (registry : list ServiceTarget) : bool :=
  completes_from 0 registry.

(** ** The computation monad *)

Lemma bind_normal {A B} (m : M A) (k : A -> M B) w a w1 :
  m w = (Normal a, w1) -> (m ≫= k) w = k a w1.
Proof. intros H. unfold mbind, M_bind. now rewrite H. Qed.

Lemma bind_suspended {A B} (m : M A) (k : A -> M B) w w1 :
  m w = (Suspended, w1) -> (m ≫= k) w = (Suspended, w1).
Proof. intros H. unfold mbind, M_bind. now rewrite H. Qed.

Lemma extend_nil w : extend w [] [] [] = w.
Proof. destruct w. unfold extend. simpl. now rewrite !app_nil_r. Qed.

Lemma extend_extend w o1 r1 v1 o2 r2 v2 :
  extend (extend w o1 r1 v1) o2 r2 v2
  = extend w (o1 ++ o2) (r1 ++ r2) (v1 ++ v2).
Proof. unfold extend. simpl. now rewrite !app_assoc. Qed.

Lemma console_log_runs line w :
  console_log line w = (Normal tt, extend w [line] [] []).
Proof. unfold console_log, extend. now rewrite !app_nil_r. Qed.

(** Unfolds the monad and the effects, leaving strings and maps folded. *)
Ltac run_step :=
  cbv beta iota zeta delta
    [mbind M_bind mret M_ret throw try_catch await when
     console_log console_error process_exit
     results_new results_push results_get
     JSON_parse_or_throw ToString_or_throw get_property own_property
     info_line info_lines
     extend stdout stderr requests results].

Ltac same_world :=
  repeat match goal with
         | |- context [ToBoolean ?v] => destruct (ToBoolean v)
         | |- context [ToString ?v] => destruct (ToString v)
         end;
  cbv beta iota zeta;
  rewrite ?app_nil_r, <- ?app_assoc; simpl; try reflexivity.

Lemma parse_additional_info_runs resp w :
  parse_additional_info resp w
  = (Normal tt, extend w (info_lines (JSON_parse (response_data resp))) [] []).
Proof.
  unfold parse_additional_info.
  destruct w as [out err reqs res].
  run_step.
  destruct (JSON_parse (response_data resp)) as [data|]; [destruct data|];
    run_step; change (ToBoolean JUndefined) with false; same_world.
Qed.

(** ** The evaluators, case by case *)

Lemma checkService_responded service w statusCode chunks hdrs :
  outcome (length (requests w)) (url service)
  = Responded statusCode chunks hdrs ->
  checkService service w =
  if is_2xx statusCode then
    (Normal {| service := name service; status := "healthy";
               code := Some statusCode; error := None |},
     extend w
       ([checking_line (name service); healthy_line (name service) statusCode]
        ++ info_lines (JSON_parse (received_text chunks)))
       [url service] [])
  else
    (Normal {| service := name service; status := "warning";
               code := Some statusCode; error := None |},
     extend w
       [checking_line (name service); warning_line (name service) statusCode]
       [url service] []).
Proof.
  intros Hnet. destruct w as [out err reqs res].
  unfold outcome in Hnet. cbn [requests] in Hnet.
  unfold checkService, makeRequest. run_step. rewrite Hnet.
  cbn [response_status response_data].
  destruct (is_2xx statusCode); run_step.
  - rewrite parse_additional_info_runs. run_step.
    unfold checking_line, healthy_line, received_text.
    rewrite ?app_nil_r, <- ?app_assoc. reflexivity.
  - unfold checking_line, warning_line.
    rewrite ?app_nil_r, <- ?app_assoc. reflexivity.
Qed.

Lemma checkService_truncated service w statusCode chunks hdrs :
  outcome (length (requests w)) (url service)
  = Truncated statusCode chunks hdrs ->
  checkService service w
  = (Suspended, extend w [checking_line (name service)] [url service] []).
Proof.
  intros Hnet. destruct w as [out err reqs res].
  unfold outcome in Hnet. cbn [requests] in Hnet.
  unfold checkService, makeRequest. run_step. rewrite Hnet.
  unfold checking_line. rewrite ?app_nil_r. reflexivity.
Qed.

Lemma checkService_rejected service w e :
  rejection (outcome (length (requests w)) (url service)) = Some e ->
  checkService service w =
  (Normal {| service := name service; status := "error";
             code := None; error := Some (error_message e) |},
   extend w
     ([checking_line (name service);
       inaccessible_line
         (if critical service then colors.red else colors.yellow)
         (if critical service then glyph_fail else glyph_warn)
         (name service);
       "  Error: " +:+ error_message e]
      ++ suggestion (name service) e)
     [url service] []).
Proof.
  intros Hnet. destruct w as [out err reqs res].
  unfold outcome in Hnet. cbn [requests] in Hnet.
  unfold checkService, makeRequest. run_step.
  destruct (net _ _ _); cbn [rejection] in Hnet; simplify_eq; run_step;
    unfold checking_line, inaccessible_line, suggestion,
      advice_not_running, advice_slow;
    repeat match goal with
           | |- context [decide ?P] => destruct (decide P)
           | |- context [includes ?a ?b] => destruct (includes a b)
           end;
    run_step; rewrite ?app_nil_r, <- ?app_assoc; reflexivity.
Qed.

Lemma checkDatabase_responded w statusCode chunks hdrs :
  outcome (length (requests w)) stats_url = Responded statusCode chunks hdrs ->
  checkDatabase w =
  if is_2xx statusCode then
    (Normal {| service := "Database"; status := "healthy";
               code := None; error := None |},
     extend w
       [database_checking_line;
        colors.green +:+ glyph_ok +:+ " Database connection is working"
        +:+ colors.reset]
       [stats_url] [])
  else
    (Normal {| service := "Database"; status := "warning";
               code := Some statusCode; error := None |},
     extend w
       [database_checking_line;
        colors.yellow +:+ glyph_warn
        +:+ " Database connection may have issues (API returned "
        +:+ pretty statusCode +:+ ")" +:+ colors.reset]
       [stats_url] []).
Proof.
  intros Hnet. destruct w as [out err reqs res].
  unfold outcome in Hnet. cbn [requests] in Hnet.
  unfold checkDatabase, makeRequest. run_step.
  fold stats_url. rewrite Hnet. cbn [response_status].
  destruct (is_2xx statusCode); run_step; unfold database_checking_line;
    rewrite ?app_nil_r, <- ?app_assoc; reflexivity.
Qed.

Lemma checkDatabase_truncated w statusCode chunks hdrs :
  outcome (length (requests w)) stats_url = Truncated statusCode chunks hdrs ->
  checkDatabase w
  = (Suspended, extend w [database_checking_line] [stats_url] []).
Proof.
  intros Hnet. destruct w as [out err reqs res].
  unfold outcome in Hnet. cbn [requests] in Hnet.
  unfold checkDatabase, makeRequest. run_step.
  fold stats_url. rewrite Hnet.
  unfold database_checking_line. rewrite ?app_nil_r. reflexivity.
Qed.

Lemma checkDatabase_rejected w e :
  rejection (outcome (length (requests w)) stats_url) = Some e ->
  checkDatabase w =
  (Normal {| service := "Database"; status := "error";
             code := None; error := Some (error_message e) |},
   extend w (database_failure_lines e) [stats_url] []).
Proof.
  intros Hnet. destruct w as [out err reqs res].
  unfold outcome in Hnet. cbn [requests] in Hnet.
  unfold checkDatabase, makeRequest. run_step. fold stats_url.
  destruct (net _ _ _); cbn [rejection] in Hnet; simplify_eq; run_step;
    unfold database_failure_lines, database_checking_line;
    rewrite ?app_nil_r, <- ?app_assoc; reflexivity.
Qed.

Lemma is_2xx_range st : is_2xx st = bool_decide (200 <= st < 300)%Z.
Proof.
  unfold is_2xx. case_bool_decide as H.
  - apply andb_true_iff. split; [apply Z.leb_le | apply Z.ltb_lt]; lia.
  - apply andb_false_iff.
    destruct (Z.leb_spec 200 st); [right; apply Z.ltb_ge; lia | now left].
Qed.

Lemma checkService_prints t w :
  checkService t w
  = (completion_of
       (verdict_of (name t) (outcome (length (requests w)) (url t))),
     extend w (service_lines t (outcome (length (requests w)) (url t)))
       [url t] []).
Proof.
  destruct (outcome (length (requests w)) (url t))
    as [st chunks hdrs|st chunks hdrs| |err] eqn:Hnet.
  - rewrite (checkService_responded _ _ _ _ _ Hnet).
    cbn [verdict_of service_lines completion_of]. now destruct (is_2xx st).
  - now rewrite (checkService_truncated _ _ _ _ _ Hnet).
  - rewrite (checkService_rejected t w (Error "Request timeout"))
      by now rewrite Hnet.
    reflexivity.
  - rewrite (checkService_rejected t w err) by now rewrite Hnet.
    reflexivity.
Qed.

Lemma checkDatabase_prints w :
  checkDatabase w
  = (completion_of
       (database_verdict (outcome (length (requests w)) stats_url)),
     extend w (database_lines (outcome (length (requests w)) stats_url))
       [stats_url] []).
Proof.
  destruct (outcome (length (requests w)) stats_url)
    as [st chunks hdrs|st chunks hdrs| |err] eqn:Hnet.
  - rewrite (checkDatabase_responded _ _ _ _ Hnet).
    cbn [database_verdict database_lines]. now destruct (is_2xx st).
  - now rewrite (checkDatabase_truncated _ _ _ _ Hnet).
  - rewrite (checkDatabase_rejected w (Error "Request timeout"))
      by now rewrite Hnet.
    reflexivity.
  - rewrite (checkDatabase_rejected w err) by now rewrite Hnet.
    reflexivity.
Qed.

Lemma verdict_of_settles n o : is_Some (verdict_of n o) <-> settles o = true.
Proof.
  destruct o; cbn; split; intros H; try discriminate H;
    try (destruct H; discriminate); eauto.
Qed.

Lemma database_verdict_settles o :
  is_Some (database_verdict o) <-> settles o = true.
Proof.
  destruct o as [st ? ?|? ? ?| |?]; cbn; [destruct (is_2xx st)|..];
    split; intros H; try discriminate H;
    try (destruct H; discriminate); eauto.
Qed.

(** ** The loop over the registry *)

Lemma registry_loop_prints registry : forall w,
  for_of registry
    (fun service =>
       result ← checkService service;
       results_push result;;
       console_log "") w
  = (if probes_settle (length (requests w)) registry
     then Normal tt else Suspended,
     extend w (blocks_from (length (requests w)) registry)
       (requests_from (length (requests w)) registry)
       (verdicts_from (length (requests w)) registry)).
Proof.
  induction registry as [|t rest IH]; intros w.
  - cbn. now rewrite extend_nil.
  - pose proof (checkService_prints t w) as Hcheck.
    cbn [for_of verdicts_from blocks_from requests_from probes_settle].
    destruct (verdict_of (name t) (outcome (length (requests w)) (url t)))
      as [v|] eqn:Hv.
    + assert (Hs : settles (outcome (length (requests w)) (url t)) = true)
        by (apply (verdict_of_settles (name t)); rewrite Hv; eauto).
      rewrite Hs. cbn [andb completion_of] in *.
      erewrite (bind_normal _ _ w tt
                  (extend w
                     (service_lines t (outcome (length (requests w)) (url t))
                      ++ [""])
                     [url t] [v])).
      * rewrite IH, extend_extend. cbn [extend requests].
        rewrite length_app. cbn [length]. rewrite Nat.add_1_r.
        rewrite <- app_assoc. reflexivity.
      * rewrite (bind_normal _ _ _ _ _ Hcheck).
        destruct w. run_step. rewrite ?app_nil_r, <- ?app_assoc.
        reflexivity.
    + assert (Hs : settles (outcome (length (requests w)) (url t)) = false).
      { destruct (settles _) eqn:Hs; [|reflexivity].
        apply (verdict_of_settles (name t)) in Hs. rewrite Hv in Hs.
        now destruct Hs. }
      rewrite Hs. cbn [andb completion_of] in *.
      rewrite (bind_suspended _ _ w
                 (extend w
                    (service_lines t (outcome (length (requests w)) (url t)))
                    [url t] [])).
      * now rewrite !app_nil_r.
      * now rewrite (bind_suspended _ _ _ _ Hcheck).
Qed.

Lemma requests_from_settle ts : forall k,
  probes_settle k ts = true -> requests_from k ts = map url ts.
Proof.
  induction ts as [|t ts IH]; intros k; [reflexivity|].
  cbn [probes_settle requests_from map]. intros [Hs Hts]%andb_true_iff.
  now rewrite Hs, IH.
Qed.

Lemma requests_from_prefix ts : forall k,
  requests_from k ts `prefix_of` map url ts.
Proof.
  induction ts as [|t ts IH]; intros k; [reflexivity|].
  cbn [requests_from map]. apply prefix_cons.
  destruct (settles _); [apply IH|apply prefix_nil].
Qed.

(** ** The aggregator *)

Lemma main_on_prints registry w :
  main_on registry w
  = (if completes_from (length (requests w)) registry then
       Exit (if bool_decide
                  (0 < count_status "error"
                         (results_of (length (requests w)) registry))
             then 1%Z else 0%Z)
     else Suspended,
     {| stdout := stdout w ++ output_of (length (requests w)) registry;
        stderr := stderr w;
        requests := requests w ++ requests_of (length (requests w)) registry;
        results := results_of (length (requests w)) registry |}).
Proof.
  destruct w as [o0 e0 r0 v0]. cbn [stdout stderr requests results].
  unfold completes_from, output_of, requests_of, results_of.
  eassert (H1 : main_on registry (Build_World o0 e0 r0 v0) = _).
  { unfold main_on.
    do 2 (erewrite bind_normal by reflexivity;
          cbn [stdout stderr requests results]).
    reflexivity. }
  match type of H1 with
  | _ = (for_of _ _ ≫= _) ?w1 =>
      pose proof (registry_loop_prints registry w1) as Hloop
  end.
  unfold extend in Hloop. cbn [stdout stderr requests results app] in Hloop.
  destruct (probes_settle (length r0) registry) eqn:Hsettle; cbn [andb].
  - rewrite (requests_from_settle _ _ Hsettle) in *.
    rewrite (bind_normal _ _ _ _ _ Hloop) in H1.
    match type of H1 with
    | _ = (checkDatabase ≫= _) ?w2 =>
        pose proof (checkDatabase_prints w2) as Hdb
    end.
    unfold extend in Hdb. cbn [stdout stderr requests results app] in Hdb.
    rewrite !app_nil_r, length_app, length_map in Hdb.
    destruct (database_verdict (outcome (length r0 + length registry) stats_url))
      as [db|] eqn:Hv; cbn [completion_of option_list option_rect] in *.
    + assert (Hs : settles (outcome (length r0 + length registry) stats_url)
                   = true)
        by (apply database_verdict_settles; rewrite Hv; eauto).
      rewrite Hs.
      rewrite (bind_normal _ _ _ _ _ Hdb) in H1.
      do 7 (erewrite bind_normal in H1 by reflexivity;
            cbn [stdout stderr requests results] in H1).
      cbv zeta in H1. rewrite H1. clear H1 Hloop Hdb.
      unfold closing_lines.
      generalize (verdicts_from (length r0) registry ++ [db]). intros report.
      destruct (bool_decide (0 < count_status "error" report));
        [|destruct (bool_decide (0 < count_status "warning" report))];
        repeat (erewrite bind_normal by reflexivity;
                cbn [stdout stderr requests results]);
        unfold process_exit, banner_line; f_equal; f_equal;
        cbn [summary_lines]; rewrite <- ?app_assoc; reflexivity.
    + assert (Hs : settles (outcome (length r0 + length registry) stats_url)
                   = false).
      { destruct (settles _) eqn:Hs; [|reflexivity].
        apply database_verdict_settles in Hs. rewrite Hv in Hs.
        now destruct Hs. }
      rewrite Hs.
      rewrite (bind_suspended _ _ _ _ Hdb) in H1. rewrite H1.
      unfold banner_line. rewrite !app_nil_r, <- ?app_assoc. reflexivity.
  - rewrite (bind_suspended _ _ _ _ Hloop) in H1. rewrite H1.
    unfold banner_line. rewrite !app_nil_r, <- ?app_assoc. reflexivity.
Qed.

Lemma run_on_prints registry :
  run_on registry
  = {| exit_status :=
         if run_completes registry
            && bool_decide (0 < count_status "error" (results_of 0 registry))
         then 1%Z else 0%Z;
       final :=
         {| stdout := output_of 0 registry;
            stderr := [];
            requests := requests_of 0 registry;
            results := results_of 0 registry |} |}.
Proof.
  unfold run_on, run_completes. rewrite main_on_prints. cbn.
  destruct (completes_from 0 registry); cbn; [|reflexivity].
  now destruct (bool_decide _).
Qed.

(** ** Facts about reports *)

Lemma known_verdict_of n o v :
  verdict_of n o = Some v -> known_status (status v).
Proof.
  unfold known_status. destruct o as [st ? ?|? ? ?| |?]; cbn;
    intros H; simplify_eq; cbn; [destruct (is_2xx st)|..]; auto.
Qed.

Lemma known_database_verdict o v :
  database_verdict o = Some v -> known_status (status v).
Proof.
  unfold known_status. destruct o as [st ? ?|? ? ?| |?]; cbn;
    [destruct (is_2xx st)|..]; intros H; simplify_eq; cbn; auto.
Qed.

Lemma service_verdict_of n o v : verdict_of n o = Some v -> service v = n.
Proof. destruct o; cbn; intros H; now simplify_eq. Qed.

Lemma service_database_verdict o v :
  database_verdict o = Some v -> service v = "Database".
Proof.
  destruct o as [st ? ?|? ? ?| |?]; cbn; [destruct (is_2xx st)|..];
    intros H; now simplify_eq.
Qed.



Lemma known_verdicts_from ts : forall k,
  Forall (fun v => known_status (status v)) (verdicts_from k ts).
Proof.
  induction ts as [|t ts IH]; intros k; cbn [verdicts_from]; [constructor|].
  destruct (verdict_of _ _) as [v|] eqn:Hv; constructor; [|apply IH].
  exact (known_verdict_of _ _ _ Hv).
Qed.

Lemma known_results_of k registry :
  Forall (fun v => known_status (status v)) (results_of k registry).
Proof.
  apply Forall_app. split; [apply known_verdicts_from|].
  destruct (probes_settle k registry); [|constructor].
  destruct (database_verdict _) as [db|] eqn:Hdb; [|constructor].
  constructor; [exact (known_database_verdict _ _ Hdb)|constructor].
Qed.

Lemma service_verdicts_from ts : forall k,
  probes_settle k ts = true ->
  map service (verdicts_from k ts) = map name ts.
Proof.
  induction ts as [|t ts IH]; intros k; [reflexivity|].
  cbn [probes_settle verdicts_from]. intros [Hs Hts]%andb_true_iff.
  apply (verdict_of_settles (name t)) in Hs as [v Hv]. rewrite Hv.
  cbn [map]. now rewrite (service_verdict_of _ _ _ Hv), IH.
Qed.

Lemma length_verdicts_from ts : forall k,
  probes_settle k ts = true -> length (verdicts_from k ts) = length ts.
Proof.
  intros k Hs. rewrite <- (length_map service), service_verdicts_from by easy.
  apply length_map.
Qed.

Lemma lookup_verdicts_from ts : forall k i t,
  probes_settle k ts = true -> ts !! i = Some t ->
  exists v, verdict_of (name t) (outcome (k + i) (url t)) = Some v
            /\ verdicts_from k ts !! i = Some v.
Proof.
  induction ts as [|t0 ts IH]; intros k i t Hs Hi; [discriminate|].
  cbn [probes_settle] in Hs. apply andb_true_iff in Hs as [Hs Hts].
  apply (verdict_of_settles (name t0)) in Hs as [v0 Hv0].
  cbn [verdicts_from]. rewrite Hv0. destruct i as [|i].
  - injection Hi as <-. exists v0. now rewrite Nat.add_0_r.
  - destruct (IH (S k) i t Hts Hi) as (v & Hv & Hlookup).
    exists v. now rewrite Nat.add_succ_r.
Qed.


Lemma count_status_cons s v rs :
  count_status s (v :: rs)
  = (if decide (status v = s) then 1 else 0) + count_status s rs.
Proof. unfold count_status. rewrite filter_cons. now case_decide. Qed.

Lemma counts_partition rs :
  Forall (fun v => known_status (status v)) rs ->
  count_status "healthy" rs + count_status "warning" rs
  + count_status "error" rs = length rs.
Proof.
  induction 1 as [|v rs Hv _ IH]; [reflexivity|].
  rewrite !count_status_cons. cbn [length]. rewrite <- IH.
  destruct Hv as [Hv|[Hv|Hv]]; rewrite Hv;
    repeat case_decide; try congruence; lia.
Qed.



Lemma requests_of_prefix k registry :
  requests_of k registry `prefix_of` map url registry ++ [stats_url].
Proof.
  unfold requests_of. destruct (probes_settle k registry) eqn:Hs.
  - now rewrite (requests_from_settle _ _ Hs).
  - rewrite app_nil_r. apply prefix_app_r, requests_from_prefix.
Qed.

Lemma complete_run registry :
  run_completes registry = true ->
  exists db,
    database_verdict (outcome (length registry) stats_url) = Some db
    /\ results_of 0 registry = verdicts_from 0 registry ++ [db]
    /\ requests_of 0 registry = map url registry ++ [stats_url]
    /\ probes_settle 0 registry = true
    /\ output_of 0 registry
       = [banner_line]
         ++ blocks_from 0 registry
         ++ database_lines (outcome (length registry) stats_url)
         ++ [""]
         ++ summary_lines (results_of 0 registry)
         ++ closing_lines (results_of 0 registry).
Proof.
  unfold run_completes, completes_from, results_of, requests_of, output_of.
  cbn [Nat.add]. intros [Hs Hdb]%andb_true_iff. rewrite Hs, Hdb.
  pose proof Hdb as Hdb'. apply database_verdict_settles in Hdb' as [db Hv].
  exists db. rewrite Hv, (requests_from_settle _ _ Hs).
  repeat split; try reflexivity. unfold results_of. cbn [Nat.add].
  now rewrite Hs, Hv.
Qed.


(** ** The claims *)

(** C1. In a run that reaches its final report, that is, a run whose
    probes all settle, the process exits through [process.exit] at the end
    of [main], and its status is 1 exactly when the report holds at least
    one verdict with status ['error']; with no such verdict it is 0,
    whatever the number of warnings. *)
Theorem exit_code_from_error_count registry :
  run_completes registry = true ->
  main_on registry initial
  = (Exit (exit_status (run_on registry)), final (run_on registry))
  /\ ((exit_status (run_on registry) = 1%Z
       /\ 0 < count_status "error" (results (final (run_on registry))))
      \/ (exit_status (run_on registry) = 0%Z
          /\ count_status "error" (results (final (run_on registry))) = 0)).
Proof.
  intros Hrun. rewrite run_on_prints, main_on_prints.
  change (length (requests initial)) with 0.
  fold (run_completes registry). rewrite Hrun.
  cbn [exit_status final results andb]. split.
  - unfold initial. cbn [stdout stderr requests app]. reflexivity.
  - case_bool_decide; [left|right]; split; auto; lia.
Qed.

(** C2. [checkService] returns a verdict whose status is ['healthy'] when the
    probe ends in a response with a status code in [200, 300), ['warning']
    when it ends in a response with any other status code, and ['error']
    when it ends without a response, by a timeout or an error.  (When the
    response is cut off before its end, the call never returns.) *)
Theorem checkService_status_policy t w :
  match outcome (length (requests w)) (url t) with
  | Responded statusCode _ _ =>
      exists v w',
        checkService t w = (Normal v, w')
        /\ (((200 <= statusCode < 300)%Z /\ status v = "healthy")
            \/ (~ (200 <= statusCode < 300)%Z /\ status v = "warning"))
  | TimeoutFired | ErrorEmitted _ =>
      exists v w', checkService t w = (Normal v, w') /\ status v = "error"
  | Truncated _ _ _ => exists w', checkService t w = (Suspended, w')
  end.
Proof.
  rewrite checkService_prints.
  destruct (outcome _ _) as [st ? ?|? ? ?| |?];
    cbn [verdict_of completion_of]; eauto.
  eexists _, _. split; [reflexivity|]. cbn [status].
  rewrite is_2xx_range. case_bool_decide; [left|right]; auto.
Qed.

(** C10. Every verdict that [checkService] or [checkDatabase] returns has
    one of the statuses ['healthy'], ['warning'], ['error'], and in the
    [results] of every run the three counts of the summary add up to the
    number of verdicts. *)
Theorem status_counts_partition_report :
  (forall t w,
      if settles (outcome (length (requests w)) (url t)) then
        exists v w',
          checkService t w = (Normal v, w') /\ known_status (status v)
      else exists w', checkService t w = (Suspended, w'))
  /\ (forall w,
        if settles (outcome (length (requests w)) stats_url) then
          exists v w',
            checkDatabase w = (Normal v, w') /\ known_status (status v)
        else exists w', checkDatabase w = (Suspended, w'))
  /\ (forall registry,
        Forall (fun v => known_status (status v))
          (results (final (run_on registry)))
        /\ count_status "healthy" (results (final (run_on registry)))
           + count_status "warning" (results (final (run_on registry)))
           + count_status "error" (results (final (run_on registry)))
           = length (results (final (run_on registry)))).
Proof.
  split; [|split].
  - intros t w. rewrite checkService_prints.
    destruct (verdict_of _ _) as [v|] eqn:Hv.
    + rewrite (proj1 (verdict_of_settles _ _)) by (rewrite Hv; eauto).
      eexists _, _. split; [reflexivity|]. exact (known_verdict_of _ _ _ Hv).
    + destruct (settles _) eqn:Hs; [|cbn; eauto].
      apply (verdict_of_settles (name t)) in Hs as [v Hs]. congruence.
  - intros w. rewrite checkDatabase_prints.
    destruct (database_verdict _) as [v|] eqn:Hv.
    + rewrite (proj1 (database_verdict_settles _)) by (rewrite Hv; eauto).
      eexists _, _. split; [reflexivity|].
      exact (known_database_verdict _ _ Hv).
    + destruct (settles _) eqn:Hs; [|cbn; eauto].
      apply database_verdict_settles in Hs as [v Hs]. congruence.
  - intros registry. rewrite run_on_prints. cbn [final results].
    split; [apply known_results_of|].
    apply counts_partition, known_results_of.
Qed.

(** ** The critical flag *)

Lemma verdicts_from_reflag flags : forall ts k,
  verdicts_from k (reflag flags ts) = verdicts_from k ts.
Proof.
  induction flags as [|b flags IH]; intros [|t ts] k; cbn; try reflexivity.
  now rewrite IH.
Qed.

Lemma probes_settle_reflag flags : forall ts k,
  probes_settle k (reflag flags ts) = probes_settle k ts.
Proof.
  induction flags as [|b flags IH]; intros [|t ts] k; cbn; try reflexivity.
  now rewrite IH.
Qed.

Lemma length_reflag flags : forall ts, length (reflag flags ts) = length ts.
Proof.
  induction flags as [|b flags IH]; intros [|t ts]; cbn; try reflexivity.
  now rewrite IH.
Qed.

Lemma results_of_reflag flags ts k :
  results_of k (reflag flags ts) = results_of k ts.
Proof.
  unfold results_of.
  now rewrite verdicts_from_reflag, probes_settle_reflag, length_reflag.
Qed.

Lemma completes_from_reflag flags ts k :
  completes_from k (reflag flags ts) = completes_from k ts.
Proof.
  unfold completes_from. now rewrite probes_settle_reflag, length_reflag.
Qed.

(** C4. Setting the [critical] flag of a target to any value changes nothing
    of how a call of [checkService] for it completes (the verdict and its
    status included) and nothing of the requests it issues; the lines it
    prints are the same, or the same but for the color and the symbol of the
    "not accessible" line.  Changing the flags of a registry changes neither
    the report nor the exit status of the run. *)
Theorem critical_flag_only_changes_rendering :
  (forall t b w, exists c out1 out2,
      checkService (with_critical b t) w = (c, extend w out1 [url t] [])
      /\ checkService t w = (c, extend w out2 [url t] [])
      /\ (if settles (outcome (length (requests w)) (url t))
          then exists v, c = Normal v else c = Suspended)
      /\ (out1 = out2
          \/ exists pre post,
              out1 = pre ++ [inaccessible_line (failure_color b)
                               (failure_symbol b) (name t)] ++ post
              /\ out2 = pre ++ [inaccessible_line
                                  (failure_color (critical t))
                                  (failure_symbol (critical t)) (name t)]
                        ++ post))
  /\ (forall flags registry,
        exit_status (run_on (reflag flags registry))
        = exit_status (run_on registry)
        /\ results (final (run_on (reflag flags registry)))
           = results (final (run_on registry))).
Proof.
  split.
  - intros t b w.
    rewrite (checkService_prints (with_critical b t) w).
    rewrite (checkService_prints t w). cbn [name url with_critical].
    eexists _, _, _. split; [reflexivity|]. split; [reflexivity|].
    destruct (outcome (length (requests w)) (url t)) as [st ? ?|? ? ?| |err];
      cbn [settles verdict_of completion_of service_lines].
    + split; [eauto|]. left. cbn [name]. now destruct (is_2xx st).
    + split; [reflexivity|]. now left.
    + split; [eauto|]. right. exists [checking_line (name t)].
      eexists. split; reflexivity.
    + split; [eauto|]. right. exists [checking_line (name t)].
      eexists. split; reflexivity.
  - intros flags registry. rewrite !run_on_prints.
    cbn [exit_status final results]. unfold run_completes.
    now rewrite results_of_reflag, completes_from_reflag.
Qed.

(** ** The substring test on the error message *)

Lemma prefix_split n : forall h,
  String.prefix n h = true <-> exists post, h = n +:+ post.
Proof.
  induction n as [|c n IH]; intros h.
  - destruct h; cbn; (split; [intros _; eexists; reflexivity|reflexivity]).
  - destruct h as [|d h]; cbn.
    + split; [discriminate|]. intros [post Hpost]. discriminate.
    + destruct (Ascii.ascii_dec c d) as [->|Hne].
      * rewrite IH. split; intros [post Hpost]; exists post.
        -- simpl. now rewrite Hpost.
        -- simpl in Hpost. now injection Hpost.
      * split; [discriminate|]. intros [post Hpost].
        simpl in Hpost. injection Hpost as Hc _. now destruct Hne.
Qed.

Lemma includes_split n : forall h,
  includes h n = true <-> exists pre post, h = pre +:+ n +:+ post.
Proof.
  induction h as [|d h IH]; cbn [includes].
  - rewrite orb_false_r, prefix_split. split.
    + intros [post Hpost]. exists "", post. exact Hpost.
    + intros ([|? ?] & post & Hpost); [eauto|discriminate].
  - rewrite orb_true_iff, prefix_split, IH. split.
    + intros [[post Hpost]|(pre & post & Hpost)].
      * exists "", post. exact Hpost.
      * exists (String d pre), post. simpl. now rewrite Hpost.
    + intros ([|c pre] & post & Hpost).
      * left. eauto.
      * right. exists pre, post. simpl in Hpost. now injection Hpost.
Qed.

(** ** Suggestions *)

(** C8, as the script has it. For a probe that fails with error [e],
    [checkService] prints, after the "not accessible" line and the error
    line, the "make sure it is running" line when the code of [e] is
    [ECONNREFUSED]; otherwise the "slow or overloaded" line when the message
    of [e] has the text [timeout] somewhere in it, as the message of the
    prober's own timeout has; otherwise nothing. *)
Theorem suggestion_follows_table t w e :
  rejection (outcome (length (requests w)) (url t)) = Some e ->
  exists advice,
    checkService t w
    = (Normal {| service := name t; status := "error";
                 code := None; error := Some (error_message e) |},
       extend w
         ([checking_line (name t);
           inaccessible_line (failure_color (critical t))
             (failure_symbol (critical t)) (name t);
           "  Error: " +:+ error_message e] ++ advice)
         [url t] [])
    /\ ((error_code e = Some "ECONNREFUSED"
         /\ advice = [advice_not_running (name t)])
        \/ (error_code e <> Some "ECONNREFUSED"
            /\ (exists pre post,
                   error_message e = pre +:+ "timeout" +:+ post)
            /\ advice = [advice_slow])
        \/ (error_code e <> Some "ECONNREFUSED"
            /\ (~ exists pre post,
                     error_message e = pre +:+ "timeout" +:+ post)
            /\ advice = []))
    /\ (outcome (length (requests w)) (url t) = TimeoutFired ->
        advice = [advice_slow]).
Proof.
  intros Hrej. exists (suggestion (name t) e).
  split; [now apply checkService_rejected|]. split.
  - rewrite <- includes_split. unfold suggestion.
    case_decide as Hcode; [now left|right].
    destruct (includes (error_message e) "timeout"); [left|right];
      (split; [exact Hcode|split; [|reflexivity]]);
      [reflexivity|discriminate].
  - intros Hnet. rewrite Hnet in Hrej. cbn in Hrej. simplify_eq.
    reflexivity.
Qed.

(** ** The registry of the script *)

(** C6, as the script has it. The registry lists, and [main] probes, first
    the AI service (critical), second the API backend (critical), third the
    web frontend (not critical); the database endpoint of the API backend is
    requested after the three.  The requests of any run are the first ones
    of that sequence, and all four when every probe settles. *)
Theorem registry_probe_order :
  map name services = ["Vanna AI Service"; "API Backend"; "Web Frontend"]
  /\ map critical services = [true; true; false]
  /\ requests (final run)
     `prefix_of` ["http://localhost:8000/health";
                  "http://localhost:4000/api/chat/health";
                  "http://localhost:3000";
                  "http://localhost:4000/api/stats"]
  /\ (run_completes services = true ->
      requests (final run)
      = ["http://localhost:8000/health";
         "http://localhost:4000/api/chat/health";
         "http://localhost:3000";
         "http://localhost:4000/api/stats"]
      /\ map service (results (final run))
         = ["Vanna AI Service"; "API Backend"; "Web Frontend"; "Database"]).
Proof.
  split; [reflexivity|]. split; [reflexivity|].
  unfold run. rewrite run_on_prints. cbn [final requests results]. split.
  - exact (requests_of_prefix 0 services).
  - intros Hrun.
    destruct (complete_run services Hrun) as (db & Hdb & -> & -> & Hs & _).
    split; [reflexivity|].
    rewrite map_app, (service_verdicts_from _ _ Hs). cbn [map].
    now rewrite (service_database_verdict _ _ Hdb).
Qed.

(** C7, as the script has it. The probe of the web frontend is judged like
    every other: a response with a 2xx status code gives ['healthy'], a
    redirect (3xx) gives ['warning'], as does any other status code, and a
    probe that ends without response gives ['error'].  (When the response is
    cut off before its end, the call never returns.) *)
Theorem frontend_status_policy w :
  services !! 2 = Some frontend
  /\ match outcome (length (requests w)) (url frontend) with
     | Responded statusCode _ _ =>
         exists v w',
           checkService frontend w = (Normal v, w')
           /\ (((200 <= statusCode < 300)%Z /\ status v = "healthy")
               \/ ((300 <= statusCode < 400)%Z /\ status v = "warning")
               \/ ((statusCode < 200 \/ 400 <= statusCode)%Z
                   /\ status v = "warning"))
     | TimeoutFired | ErrorEmitted _ =>
         exists v w',
           checkService frontend w = (Normal v, w') /\ status v = "error"
     | Truncated _ _ _ => exists w', checkService frontend w = (Suspended, w')
     end.
Proof.
  split; [reflexivity|]. rewrite checkService_prints.
  destruct (outcome _ _) as [st ? ?|? ? ?| |?];
    cbn [verdict_of completion_of]; eauto.
  eexists _, _. split; [reflexivity|]. cbn [status].
  rewrite is_2xx_range. case_bool_decide; [now left|right].
  destruct (decide (300 <= st < 400)%Z); [left|right]; split; auto; lia.
Qed.

(** ** The body of a healthy response *)

(** C9, as the script has it. For a response with a 2xx status code the
    verdict is ['healthy'] with the status code, nothing is thrown, and
    after the "is healthy" line the script goes through the properties
    [status], [services] and [version] of the parsed object in this order:
    a falsy or absent one is passed over, a truthy one is printed on a line
    of its own, and a truthy [status] or [version] that cannot be converted
    to a string ends the block without a line for it or for those after it.
    A body that is not JSON, or that parses to anything but an object, adds
    no line. *)
Theorem body_info_is_optional t w statusCode chunks hdrs :
  outcome (length (requests w)) (url t) = Responded statusCode chunks hdrs ->
  (200 <= statusCode < 300)%Z ->
  checkService t w
  = (Normal {| service := name t; status := "healthy";
               code := Some statusCode; error := None |},
     extend w
       ([checking_line (name t); healthy_line (name t) statusCode]
        ++ info_lines (JSON_parse (received_text chunks)))
       [url t] [])
  /\ info_lines (JSON_parse (received_text chunks))
     = match JSON_parse (received_text chunks) with
       | Some (JObject props) =>
           info_line "  Status: "
             (ToString (default JUndefined (props !! "status")))
             (default JUndefined (props !! "status"))
             (info_line "  Services: "
                (Some (JSON_stringify
                         (default JUndefined (props !! "services"))))
                (default JUndefined (props !! "services"))
                (info_line "  Version: "
                   (ToString (default JUndefined (props !! "version")))
                   (default JUndefined (props !! "version"))
                   []))
       | _ => []
       end.
Proof.
  intros Hnet Hst.
  rewrite (checkService_responded t w statusCode chunks hdrs Hnet).
  rewrite is_2xx_range, bool_decide_eq_true_2 by exact Hst.
  split; reflexivity.
Qed.

(** ** The output of a run *)




(** X3. The standard output of a run whose probes all settle is, in this
    order: the banner; for each target in registry order the lines of its
    check followed by an empty line; the lines of the database check and an
    empty line; the four summary lines with the counts of the report; the
    closing lines.  No run writes to standard error. *)
Theorem run_output_layout registry :
  run_completes registry = true ->
  stdout (final (run_on registry))
  = [banner_line]
    ++ blocks_from 0 registry
    ++ database_lines (outcome (length registry) stats_url)
    ++ [""]
    ++ summary_lines (results (final (run_on registry)))
    ++ closing_lines (results (final (run_on registry)))
  /\ stderr (final (run_on registry)) = [].
Proof.
  intros Hrun. rewrite run_on_prints. cbn [final stdout stderr results].
  destruct (complete_run registry Hrun) as (db & _ & _ & _ & _ & Hout).
  split; [exact Hout|reflexivity].
Qed.

(** X10. The report of a run whose probes all settle holds one verdict per
    registered target, in the order of the registry, the [i]-th verdict
    being the one of the [i]-th target for its own probe, followed by the
    verdict of the database check, which is the last element. *)
Theorem complete_report_follows_registry_order registry :
  run_completes registry = true ->
  map service (results (final (run_on registry)))
  = map name registry ++ ["Database"]
  /\ length (results (final (run_on registry))) = length registry + 1
  /\ (forall i t, registry !! i = Some t ->
        exists v,
          verdict_of (name t) (outcome i (url t)) = Some v
          /\ results (final (run_on registry)) !! i = Some v)
  /\ exists db,
      database_verdict (outcome (length registry) stats_url) = Some db
      /\ last (results (final (run_on registry))) = Some db.
Proof.
  intros Hrun. rewrite run_on_prints. cbn [final results].
  destruct (complete_run registry Hrun) as (db & Hdb & -> & _ & Hs & _).
  split; [|split; [|split]].
  - rewrite map_app, (service_verdicts_from _ _ Hs). cbn [map].
    now rewrite (service_database_verdict _ _ Hdb).
  - rewrite length_app, (length_verdicts_from _ _ Hs). reflexivity.
  - intros i t Hi.
    destruct (lookup_verdicts_from _ 0 i t Hs Hi) as (v & Hv & Hlookup).
    exists v. split; [exact Hv|]. rewrite lookup_app_l; [exact Hlookup|].
    rewrite (length_verdicts_from _ _ Hs). now apply lookup_lt_Some in Hi.
  - exists db. split; [exact Hdb|apply last_snoc].
Qed.

(** X11. No run reaches the handler of unhandled rejections: [main] never
    throws and nothing is written to standard error.  It ends in
    [process.exit] when every probe settles, and otherwise it is left
    waiting for the probe that does not. *)
Theorem main_never_throws registry :
  stderr (final (run_on registry)) = []
  /\ ((run_completes registry = true
       /\ exists c, fst (main_on registry initial) = Exit c)
      \/ (run_completes registry = false
          /\ fst (main_on registry initial) = Suspended)).
Proof.
  rewrite run_on_prints, main_on_prints. cbn [final stderr fst].
  split; [reflexivity|].
  change (length (requests initial)) with 0. fold (run_completes registry).
  destruct (run_completes registry); [left|right]; eauto.
Qed.

(** ** The evaluators in detail *)

(** X4. [checkDatabase] sends one request, to the stats endpoint, and
    returns a verdict named [Database]: healthy, with neither code nor
    error, for a response in [200, 300); a warning carrying the status code
    for any other response; an error carrying the message when there is no
    response.  After a failure it prints the same four lines, ending with
    the advice about [DATABASE_URL], whatever the error was.  (When the
    response is cut off before its end, the call never returns.) *)
Theorem checkDatabase_verdict_and_lines w :
  exists c out,
    checkDatabase w = (c, extend w out [stats_url] [])
    /\ match outcome (length (requests w)) stats_url with
       | Responded statusCode _ _ =>
           ((200 <= statusCode < 300)%Z
            /\ c = Normal {| service := "Database"; status := "healthy";
                             code := None; error := None |}
            /\ length out = 2)
           \/ (~ (200 <= statusCode < 300)%Z
               /\ c = Normal {| service := "Database"; status := "warning";
                                code := Some statusCode; error := None |}
               /\ length out = 2)
       | Truncated _ _ _ => c = Suspended /\ out = [database_checking_line]
       | TimeoutFired =>
           c = Normal {| service := "Database"; status := "error";
                         code := None; error := Some "Request timeout" |}
           /\ out = database_failure_lines (Error "Request timeout")
       | ErrorEmitted err =>
           c = Normal {| service := "Database"; status := "error";
                         code := None; error := Some (error_message err) |}
           /\ out = database_failure_lines err
       end.
Proof.
  eexists _, _. split; [apply checkDatabase_prints|].
  destruct (outcome _ _) as [st ? ?|? ? ?| |err];
    cbn [database_verdict database_lines completion_of];
    [|split; reflexivity..].
  rewrite is_2xx_range.
  case_bool_decide as Hst; [left|right];
    (split; [exact Hst|split; reflexivity]).
Qed.

(** X5. The verdict of [checkService] carries the name of the target; it
    carries the status code and no error text when there was a response, and
    the error message and no status code when there was none.  (When the
    response is cut off before its end, the call never returns.) *)
Theorem checkService_verdict_fields t w :
  exists c w',
    checkService t w = (c, w')
    /\ match outcome (length (requests w)) (url t) with
       | Responded statusCode _ _ =>
           exists v,
             c = Normal v /\ service v = name t
             /\ code v = Some statusCode /\ error v = None
       | Truncated _ _ _ => c = Suspended
       | TimeoutFired =>
           exists v,
             c = Normal v /\ service v = name t
             /\ code v = None /\ error v = Some "Request timeout"
       | ErrorEmitted err =>
           exists v,
             c = Normal v /\ service v = name t
             /\ code v = None /\ error v = Some (error_message err)
       end.
Proof.
  eexists _, _. split; [apply checkService_prints|].
  destruct (outcome _ _); cbn [verdict_of completion_of]; eauto.
Qed.

Lemma length_info_lines parsed : length (info_lines parsed) <= 3.
Proof.
  destruct parsed as [data|]; [|cbn; lia].
  destruct data; cbn [info_lines length]; try lia. unfold info_line.
  repeat match goal with
         | |- context [ToBoolean ?v] => destruct (ToBoolean v)
         | |- context [ToString ?v] => destruct (ToString v)
         end; cbn [length]; lia.
Qed.

Lemma length_suggestion n e : length (suggestion n e) <= 1.
Proof.
  unfold suggestion. case_decide; [cbn; lia|].
  destruct (includes _ _); cbn; lia.
Qed.

(** X6. One call of [checkService] sends exactly one request, to the URL of
    the target, writes nothing to standard error, leaves [results] alone and
    does not end the process; the first line it prints announces the check.
    When the probe settles it returns a verdict and has printed between two
    and five lines; when the response is cut off it never returns and that
    first line is all it has printed. *)
Theorem checkService_effects t w :
  exists c w' out,
    checkService t w = (c, w')
    /\ requests w' = requests w ++ [url t]
    /\ stderr w' = stderr w
    /\ results w' = results w
    /\ stdout w' = stdout w ++ out
    /\ head out = Some (checking_line (name t))
    /\ ((settles (outcome (length (requests w)) (url t)) = true
         /\ (exists v, c = Normal v) /\ 2 <= length out <= 5)
        \/ (settles (outcome (length (requests w)) (url t)) = false
            /\ c = Suspended /\ out = [checking_line (name t)])).
Proof.
  eexists _, _, _. split; [apply checkService_prints|].
  cbn [extend requests stderr results stdout].
  rewrite app_nil_r. do 4 (split; [reflexivity|]).
  pose proof (length_info_lines) as Hinfo.
  pose proof (length_suggestion (name t)) as Hadvice.
  destruct (outcome _ _) as [st chunks ?|? ? ?| |e];
    cbn [service_lines verdict_of completion_of settles];
    [destruct (is_2xx st)|..]; unfold failure_lines;
    (split; [reflexivity|]); try (right; easy); left;
    (split; [reflexivity|]); (split; [eauto|]);
    rewrite ?length_app; cbn [length].
  - specialize (Hinfo (JSON_parse (received_text chunks))). lia.
  - lia.
  - specialize (Hadvice (Error "Request timeout")). lia.
  - specialize (Hadvice e). lia.
Qed.

(** X7. After a failed probe [checkService] prints the "slow to respond or
    overloaded" advice exactly when the code of the error is not
    [ECONNREFUSED] and its message contains the lower-case text [timeout]
    somewhere; it prints no advice exactly when the code is not
    [ECONNREFUSED] and the message does not contain that text. *)
Theorem slow_advice_is_a_substring_test t w e :
  rejection (outcome (length (requests w)) (url t)) = Some e ->
  exists advice,
    checkService t w
    = (Normal {| service := name t; status := "error";
                 code := None; error := Some (error_message e) |},
       extend w
         ([checking_line (name t);
           inaccessible_line (failure_color (critical t))
             (failure_symbol (critical t)) (name t);
           "  Error: " +:+ error_message e] ++ advice)
         [url t] [])
    /\ (advice = [advice_slow]
        <-> error_code e <> Some "ECONNREFUSED"
            /\ exists pre post,
                error_message e = pre +:+ "timeout" +:+ post)
    /\ (advice = []
        <-> error_code e <> Some "ECONNREFUSED"
            /\ ~ exists pre post,
                  error_message e = pre +:+ "timeout" +:+ post).
Proof.
  intros Hrej. exists (suggestion (name t) e).
  split; [now apply checkService_rejected|].
  rewrite <- includes_split. unfold suggestion.
  case_decide as Hcode; [|destruct (includes (error_message e) "timeout")].
  - split; split.
    + intros H. injection H as H. unfold advice_not_running, advice_slow in H.
      simpl in H. discriminate H.
    + intros [Hne _]. contradiction.
    + discriminate.
    + intros [Hne _]. contradiction.
  - split; split.
    + auto.
    + reflexivity.
    + discriminate.
    + intros [_ Hno]. now contradiction Hno.
  - split; split.
    + discriminate.
    + intros [_ Hyes]. discriminate.
    + intros _. split; [exact Hcode|discriminate].
    + reflexivity.
Qed.

(** ** What the body of a response can change *)






Lemma verdict_of_status_line n o :
  verdict_of n (status_line_of o) = verdict_of n o.
Proof. now destruct o. Qed.

Lemma database_verdict_status_line o :
  database_verdict (status_line_of o) = database_verdict o.
Proof. now destruct o. Qed.

Lemma settles_status_line o : settles (status_line_of o) = settles o.
Proof. now destruct o. Qed.

End Script.

(** ** Two networks compared *)

Lemma verdicts_from_status_lines net1 net2 ts :
  (forall k c u, status_line_of (net1 k c u) = status_line_of (net2 k c u)) ->
  forall k, verdicts_from net1 k ts = verdicts_from net2 k ts.
Proof.
  intros Hnets. induction ts as [|t ts IH]; intros k; [reflexivity|].
  cbn [verdicts_from]. rewrite IH. unfold outcome.
  rewrite <- (verdict_of_status_line _ (net1 _ _ _)), Hnets.
  now rewrite verdict_of_status_line.
Qed.

Lemma outcome_settles_status_lines net1 net2 k u :
  (forall k c u, status_line_of (net1 k c u) = status_line_of (net2 k c u)) ->
  settles (outcome net1 k u) = settles (outcome net2 k u).
Proof.
  intros Hnets. unfold outcome.
  rewrite <- (settles_status_line (net1 _ _ _)), Hnets.
  apply settles_status_line.
Qed.

Lemma probes_settle_status_lines net1 net2 ts :
  (forall k c u, status_line_of (net1 k c u) = status_line_of (net2 k c u)) ->
  forall k, probes_settle net1 k ts = probes_settle net2 k ts.
Proof.
  intros Hnets. induction ts as [|t ts IH]; intros k; [reflexivity|].
  cbn [probes_settle].
  now rewrite IH, (outcome_settles_status_lines net1 net2 _ _ Hnets).
Qed.

Lemma requests_from_status_lines net1 net2 ts :
  (forall k c u, status_line_of (net1 k c u) = status_line_of (net2 k c u)) ->
  forall k, requests_from net1 k ts = requests_from net2 k ts.
Proof.
  intros Hnets. induction ts as [|t ts IH]; intros k; [reflexivity|].
  cbn [requests_from].
  now rewrite IH, (outcome_settles_status_lines net1 net2 _ _ Hnets).
Qed.

Lemma results_of_status_lines net1 net2 registry k :
  (forall k c u, status_line_of (net1 k c u) = status_line_of (net2 k c u)) ->
  results_of net1 k registry = results_of net2 k registry.
Proof.
  intros Hnets. unfold results_of.
  rewrite (verdicts_from_status_lines net1 net2 registry Hnets).
  rewrite (probes_settle_status_lines net1 net2 registry Hnets).
  f_equal. destruct (probes_settle net2 k registry); [|reflexivity].
  f_equal. unfold outcome.
  rewrite <- (database_verdict_status_line (net1 _ _ _)), Hnets.
  apply database_verdict_status_line.
Qed.


(** X9. Response bodies, response headers and the JSON built-ins never
    reach the report: two runs over the same registry whose probes end with
    the same status codes and the same failures send the same requests, hold
    the same verdicts and exit with the same status, whatever the bodies
    are and however they parse. *)
Theorem bodies_never_change_the_report
  net1 net2 decode1 parse1 stringify1 to_string1
  decode2 parse2 stringify2 to_string2 registry :
  (forall k c u, status_line_of (net1 k c u) = status_line_of (net2 k c u)) ->
  results (final (run_on net1 decode1 parse1 stringify1 to_string1 registry))
  = results (final (run_on net2 decode2 parse2 stringify2 to_string2
                      registry))
  /\ exit_status (run_on net1 decode1 parse1 stringify1 to_string1 registry)
     = exit_status (run_on net2 decode2 parse2 stringify2 to_string2
                      registry)
  /\ requests (final (run_on net1 decode1 parse1 stringify1 to_string1
                        registry))
     = requests (final (run_on net2 decode2 parse2 stringify2 to_string2
                          registry)).
Proof.
  intros Hnets. rewrite !run_on_prints.
  cbn [final results exit_status requests].
  unfold run_completes, completes_from, requests_of.
  rewrite (results_of_status_lines net1 net2 registry 0 Hnets).
  rewrite (probes_settle_status_lines net1 net2 registry Hnets).
  rewrite (requests_from_status_lines net1 net2 registry Hnets).
  rewrite (outcome_settles_status_lines net1 net2 _ _ Hnets).
  repeat split.
Qed.

(** ** The scenarios, run *)

(** The end-to-end scenario of the specification: the report is healthy,
    warning, error, healthy; the counts are 2, 1 and 1; the exit status is 1. *)
Example mixed_run :
  let r := run Scenario.mixed_net Scenario.decode Scenario.parse
             Scenario.stringify Scenario.to_string in
  map status (results (final r)) = ["healthy"; "warning"; "error"; "healthy"]
  /\ count_status "healthy" (results (final r)) = 2
  /\ count_status "warning" (results (final r)) = 1
  /\ count_status "error" (results (final r)) = 1
  /\ exit_status r = 1%Z.
Proof. vm_compute. repeat split. Qed.

(** A run where every target answers but one redirects exits with 0. *)
Example redirect_run :
  let r := run Scenario.redirect_net Scenario.decode Scenario.parse
             Scenario.stringify Scenario.to_string in
  map status (results (final r)) = ["healthy"; "healthy"; "warning"; "healthy"]
  /\ exit_status r = 0%Z.
Proof. vm_compute. repeat split. Qed.

(** The first target of [mixed_run] sends [{"status":"ok"}], which is
    printed. *)
Example status_line_printed :
  stdout (snd (checkService Scenario.mixed_net Scenario.decode Scenario.parse
                 Scenario.stringify Scenario.to_string
                 {| name := "Vanna AI Service";
                    url := "http://localhost:8000/health";
                    critical := true |} initial))
  = [checking_line "Vanna AI Service";
     healthy_line "Vanna AI Service" 200;
     "  Status: ok"].
Proof. vm_compute. reflexivity. Qed.

(** The body [{"status":{"toString":1},"version":"2.0"}]: the status cannot
    be converted to a string, the error is dropped, and the version, which
    comes after it, is not printed either. *)
Example unconvertible_status_ends_the_block :
  checkService Scenario.odd_status_net Scenario.decode Scenario.parse
    Scenario.stringify Scenario.to_string frontend initial
  = (Normal {| service := "Web Frontend"; status := "healthy";
               code := Some 200%Z; error := None |},
     extend initial
       [checking_line "Web Frontend"; healthy_line "Web Frontend" 200]
       ["http://localhost:3000"] []).
Proof. vm_compute. reflexivity. Qed.

(** The body is put together from the texts of the chunks, not from their
    bytes: when the two bytes of [e] with an acute accent arrive in two
    chunks, each chunk is decoded on its own and the character is lost. *)
Example chunk_boundary_inside_a_character :
  received_text Scenario.decode_utf8
    [[Byte.x22; Byte.xc3; Byte.xa9; Byte.x22]]
  = bytes [34; 195; 169; 34]
  /\ received_text Scenario.decode_utf8
       [[Byte.x22; Byte.xc3]; [Byte.xa9; Byte.x22]]
     = dquote +:+ Scenario.replacement +:+ Scenario.replacement +:+ dquote.
Proof. split; vm_compute; reflexivity. Qed.

(** C3, where the script departs from it: the first target refuses the
    connection and the response of the second is cut off before its end.
    The promise of [makeRequest] never settles, so [checkService] does not
    return and [main] stays suspended: the run holds the verdict of the
    first target only, sends no request to the third target or to the
    database endpoint, prints no summary, and ends with status 0. *)
Theorem cut_off_response_ends_the_run :
  fst (main Scenario.cut_off_net Scenario.decode Scenario.parse
         Scenario.stringify Scenario.to_string initial)
  = Suspended
  /\ run Scenario.cut_off_net Scenario.decode Scenario.parse
       Scenario.stringify Scenario.to_string
     = {| exit_status := 0%Z;
          final :=
            {| stdout :=
                 [banner_line;
                  checking_line "Vanna AI Service";
                  inaccessible_line colors.red glyph_fail "Vanna AI Service";
                  "  Error: connect ECONNREFUSED 127.0.0.1:8000";
                  "  Suggestion: Make sure Vanna AI Service is running";
                  "";
                  checking_line "API Backend"];
               stderr := [];
               requests := ["http://localhost:8000/health";
                            "http://localhost:4000/api/chat/health"];
               results :=
                 [{| service := "Vanna AI Service"; status := "error";
                     code := None;
                     error := Some "connect ECONNREFUSED 127.0.0.1:8000" |}]
            |} |}.
Proof. split; vm_compute; reflexivity. Qed.

(** C5, where the script departs from it: every target answers 200 and the
    response of the database endpoint is cut off before its end.  The run
    ends with status 0 and three verdicts for four checks: the last element
    of [results] is the verdict of the web frontend, and there is no verdict
    of the database check. *)
Theorem cut_off_response_leaves_a_check_without_verdict :
  run_completes Scenario.cut_off_database_net services = false
  /\ exit_status (run Scenario.cut_off_database_net Scenario.decode
                    Scenario.parse Scenario.stringify Scenario.to_string)
     = 0%Z
  /\ map service
       (results (final (run Scenario.cut_off_database_net Scenario.decode
                          Scenario.parse Scenario.stringify
                          Scenario.to_string)))
     = ["Vanna AI Service"; "API Backend"; "Web Frontend"]
  /\ last (stdout (final (run Scenario.cut_off_database_net Scenario.decode
                            Scenario.parse Scenario.stringify
                            Scenario.to_string)))
     = Some database_checking_line.
Proof. repeat split; vm_compute; reflexivity. Qed.

(** C6, as claimed, fails: the first request of a run goes to the AI
    service, and the API backend, whose [/api/stats] endpoint is the database
    check, comes second. *)
Lemma api_backend_is_probed_second :
  requests (final (run Scenario.silent_net Scenario.decode Scenario.parse
                     Scenario.stringify Scenario.to_string))
  <> ["http://localhost:4000/api/chat/health";
      "http://localhost:8000/health";
      "http://localhost:3000";
      "http://localhost:4000/api/stats"]
  /\ name <$> services !! 0 = Some "Vanna AI Service"
  /\ name <$> services !! 1 = Some "API Backend".
Proof.
  split; [|split; reflexivity].
  intros H. apply (f_equal head) in H. vm_compute in H. discriminate H.
Qed.

(** C7, as claimed, fails: when the web frontend answers with the redirect
    302, its verdict is ['warning']. *)
Lemma frontend_redirect_is_warning :
  services !! 2 = Some frontend
  /\ results (final (run Scenario.redirect_net Scenario.decode Scenario.parse
                      Scenario.stringify Scenario.to_string)) !! 2
     = Some {| service := "Web Frontend"; status := "warning";
               code := Some 302%Z; error := None |}
  /\ "warning" <> "healthy".
Proof. split; [reflexivity|]. split; [vm_compute; reflexivity|discriminate]. Qed.

(** C8, as claimed, fails: a host name that does not resolve is neither a
    refused connection nor a timeout, yet the message of its error has the
    text [timeout] in it, in the name of the host, and the "slow or
    overloaded" advice is printed. *)
Lemma unknown_host_gets_the_slow_advice :
  outcome Scenario.unresolved_net 0 (url Scenario.gateway)
  = ErrorEmitted {| error_code := Some "ENOTFOUND";
                    error_message :=
                      "getaddrinfo ENOTFOUND timeout.example.com" |}
  /\ checkService Scenario.unresolved_net Scenario.decode Scenario.parse
       Scenario.stringify Scenario.to_string Scenario.gateway initial
     = (Normal {| service := "Gateway"; status := "error";
                  code := None;
                  error := Some "getaddrinfo ENOTFOUND timeout.example.com" |},
        extend initial
          [checking_line "Gateway";
           inaccessible_line colors.red glyph_fail "Gateway";
           "  Error: getaddrinfo ENOTFOUND timeout.example.com";
           "  Suggestion: Service may be slow to respond or overloaded"]
          ["http://timeout.example.com/health"] []).
Proof. split; vm_compute; reflexivity. Qed.

(** C9, as claimed, fails: the body [{"version":0}] parses as JSON and has
    the property [version], yet no line is printed for it. *)
Lemma version_zero_is_not_shown :
  Scenario.parse
    (received_text Scenario.decode
       [Scenario.buffer_of ("{" +:+ dquote +:+ "version");
        Scenario.buffer_of (dquote +:+ ":0}")])
  = Some (JObject {[ "version" := JNumber 0%float ]})
  /\ checkService Scenario.version_zero_net Scenario.decode Scenario.parse
       Scenario.stringify Scenario.to_string frontend initial
     = (Normal {| service := "Web Frontend"; status := "healthy";
                  code := Some 200%Z; error := None |},
        extend initial
          [checking_line "Web Frontend"; healthy_line "Web Frontend" 200]
          ["http://localhost:3000"] []).
Proof. split; vm_compute; reflexivity. Qed.

(** [exit_code_from_error_count] at [mixed_run]. *)
Lemma exit_code_from_error_count_mixed :
  run_completes Scenario.mixed_net services = true
  /\ main Scenario.mixed_net Scenario.decode Scenario.parse
       Scenario.stringify Scenario.to_string initial
     = (Exit 1%Z,
        final (run Scenario.mixed_net Scenario.decode Scenario.parse
                 Scenario.stringify Scenario.to_string)).
Proof.
  split; [reflexivity|].
  exact (proj1 (exit_code_from_error_count Scenario.mixed_net Scenario.decode
                  Scenario.parse Scenario.stringify Scenario.to_string
                  services eq_refl)).
Defined.

(** [registry_probe_order] at [mixed_run]. *)
Lemma registry_probe_order_mixed :
  run_completes Scenario.mixed_net services = true
  /\ requests (final (run Scenario.mixed_net Scenario.decode Scenario.parse
                       Scenario.stringify Scenario.to_string))
     = ["http://localhost:8000/health";
        "http://localhost:4000/api/chat/health";
        "http://localhost:3000";
        "http://localhost:4000/api/stats"].
Proof.
  split; [reflexivity|].
  destruct (registry_probe_order Scenario.mixed_net Scenario.decode
              Scenario.parse Scenario.stringify Scenario.to_string)
    as (_ & _ & _ & Hcomplete).
  exact (proj1 (Hcomplete eq_refl)).
Defined.

(** [suggestion_follows_table] at a refused connection. *)
Lemma suggestion_follows_table_refused :
  rejection (outcome Scenario.refusing_net 0 (url frontend))
  = Some Scenario.refused
  /\ exists advice,
      checkService Scenario.refusing_net Scenario.decode Scenario.parse
        Scenario.stringify Scenario.to_string frontend initial
      = (Normal {| service := "Web Frontend"; status := "error";
                   code := None;
                   error := Some "connect ECONNREFUSED 127.0.0.1:3000" |},
         extend initial
           ([checking_line "Web Frontend";
             inaccessible_line colors.yellow glyph_warn "Web Frontend";
             "  Error: connect ECONNREFUSED 127.0.0.1:3000"] ++ advice)
           ["http://localhost:3000"] [])
      /\ advice = ["  Suggestion: Make sure Web Frontend is running"].
Proof.
  split; [reflexivity|].
  destruct (suggestion_follows_table Scenario.refusing_net Scenario.decode
              Scenario.parse Scenario.stringify Scenario.to_string
              frontend initial Scenario.refused eq_refl)
    as (advice & Hrun & [[_ Hadvice]|[[Hcode _]|[Hcode _]]] & _);
    [|exfalso; now apply Hcode..].
  exists advice. split; [exact Hrun|]. rewrite Hadvice. reflexivity.
Defined.

(** [body_info_is_optional] at the first probe of [mixed_run]. *)
Lemma body_info_is_optional_status_ok :
  outcome Scenario.mixed_net 0 "http://localhost:8000/health"
  = Responded 200 [Scenario.buffer_of Scenario.body_status_ok] []
  /\ (200 <= 200 < 300)%Z
  /\ checkService Scenario.mixed_net Scenario.decode Scenario.parse
       Scenario.stringify Scenario.to_string
       {| name := "Vanna AI Service"; url := "http://localhost:8000/health";
          critical := true |} initial
     = (Normal {| service := "Vanna AI Service"; status := "healthy";
                  code := Some 200%Z; error := None |},
        extend initial
          [checking_line "Vanna AI Service";
           healthy_line "Vanna AI Service" 200;
           "  Status: ok"]
          ["http://localhost:8000/health"] []).
Proof.
  split; [reflexivity|]. split; [lia|].
  apply (body_info_is_optional Scenario.mixed_net Scenario.decode
           Scenario.parse Scenario.stringify Scenario.to_string
           {| name := "Vanna AI Service";
              url := "http://localhost:8000/health"; critical := true |}
           initial 200 [Scenario.buffer_of Scenario.body_status_ok] []
           eq_refl).
  lia.
Defined.

(** [run_output_layout] at [mixed_run]. *)
Lemma run_output_layout_mixed :
  run_completes Scenario.mixed_net services = true
  /\ stderr (final (run Scenario.mixed_net Scenario.decode Scenario.parse
                     Scenario.stringify Scenario.to_string))
     = [].
Proof.
  split; [reflexivity|].
  exact (proj2 (run_output_layout Scenario.mixed_net Scenario.decode
                  Scenario.parse Scenario.stringify Scenario.to_string
                  services eq_refl)).
Defined.

(** [complete_report_follows_registry_order] at [mixed_run]. *)
Lemma complete_report_follows_registry_order_mixed :
  run_completes Scenario.mixed_net services = true
  /\ map service
       (results (final (run Scenario.mixed_net Scenario.decode Scenario.parse
                          Scenario.stringify Scenario.to_string)))
     = ["Vanna AI Service"; "API Backend"; "Web Frontend"; "Database"].
Proof.
  split; [reflexivity|].
  exact (proj1 (complete_report_follows_registry_order Scenario.mixed_net
                  Scenario.decode Scenario.parse Scenario.stringify
                  Scenario.to_string services eq_refl)).
Defined.

(** [slow_advice_is_a_substring_test] at a connection attempt that the
    system gave up: its message has [ETIMEDOUT] in capitals, and no advice
    is printed. *)
Lemma slow_advice_is_a_substring_test_gave_up :
  rejection (outcome Scenario.unreachable_net 0 (url frontend))
  = Some Scenario.gave_up
  /\ exists advice,
      checkService Scenario.unreachable_net Scenario.decode Scenario.parse
        Scenario.stringify Scenario.to_string frontend initial
      = (Normal {| service := "Web Frontend"; status := "error";
                   code := None;
                   error := Some "connect ETIMEDOUT 10.0.0.1:80" |},
         extend initial
           ([checking_line "Web Frontend";
             inaccessible_line colors.yellow glyph_warn "Web Frontend";
             "  Error: connect ETIMEDOUT 10.0.0.1:80"] ++ advice)
           ["http://localhost:3000"] [])
      /\ advice = [].
Proof.
  split; [reflexivity|].
  destruct (slow_advice_is_a_substring_test Scenario.unreachable_net
              Scenario.decode Scenario.parse Scenario.stringify
              Scenario.to_string frontend initial Scenario.gave_up eq_refl)
    as (advice & Hrun & _ & Hnone).
  exists advice. split; [exact Hrun|].
  apply Hnone. split; [discriminate|].
  intros Hsub. apply includes_split in Hsub. vm_compute in Hsub.
  discriminate Hsub.
Defined.


(** [bodies_never_change_the_report] at [mixed_run], with other bodies and a
    runtime whose [JSON.parse] always throws. *)
Lemma bodies_never_change_the_report_mixed :
  results (final (run Scenario.mixed_net Scenario.decode Scenario.parse
                    Scenario.stringify Scenario.to_string))
  = results (final (run Scenario.mixed_net_other_bodies (fun _ => "")
                      (fun _ => None) (fun _ => "") (fun _ => None)))
  /\ exit_status (run Scenario.mixed_net Scenario.decode Scenario.parse
                    Scenario.stringify Scenario.to_string)
     = exit_status (run Scenario.mixed_net_other_bodies (fun _ => "")
                      (fun _ => None) (fun _ => "") (fun _ => None)).
Proof.
  destruct (bodies_never_change_the_report Scenario.mixed_net
              Scenario.mixed_net_other_bodies Scenario.decode Scenario.parse
              Scenario.stringify Scenario.to_string (fun _ => "")
              (fun _ => None) (fun _ => "") (fun _ => None) services)
    as (Hresults & Hexit & _).
  - intros [|[|[|k]]] c u; reflexivity.
  - split; [exact Hresults|exact Hexit].
Defined.
